(** * vibebot/rabbit_consumer.py: the RabbitMQ consumer, its dispatcher and
    its connection life cycle

    A shallow embedding of the class [RabbitConsumer].  The object is a
    record of its fields; a method is a computation over that record which
    may raise a Python exception and which records, in order, every call it
    makes to a collaborator (the pika channel and connection, the statsd
    client, the logger, [json.loads], the handler [callback_func]).

    The code is Python 2 ([ve.message], integer [/]): a message body is a
    byte string, which is what [string] is here, and Python integers are
    [Z].

    What the collaborators do is outside the class: a call on a handle the
    consumer holds is recorded and returns; a call on a field that is
    [None] raises [AttributeError], as attribute access on [None] does;
    [json.loads], [body.decode] and the handler are functions of their
    argument; the blocking [ioloop.start()] is a parameter of the methods
    that call it. *)

From Stdlib Require Import ZArith String List Bool Lia.
From stdpp Require Import base option list strings gmap.

Open Scope string_scope.
Open Scope Z_scope.
Open Scope list_scope.

(** ** Python values and exceptions *)

(** The values a handler puts into an outbound message and the dispatcher
    hands to [basic_publish]: [None] or a (byte) string. *)
Inductive value : Type :=
| VNone
| VStr (s : string).

#[global] Instance value_eq_dec : EqDecision value.
Proof. solve_decision. Defined.

(** An outbound message is a Python dict with the keys ['exchange'],
    ['queue'] and ['body'], each optional. *)
Abbreviation Message := (gmap string value).

(** [d.get(key, default)]: the value stored under [key] when the key is
    present (whatever the value, [None] included), else [default]. *)
Definition dict_get (d : Message) (key : string) (default : value) : value :=
  match d !! key with
  | Some v => v
  | None => default
  end.

(** The exceptions of the model.  The first three derive from
    [BaseException] only; the others derive from [Exception], and
    [UnicodeDecodeError] from [ValueError]. *)
Inductive exn : Type :=
| KeyboardInterrupt
| SystemExit
| GeneratorExit
| ValueError (msg : string)
| UnicodeDecodeError (msg : string)
| AttributeError (msg : string)
| OtherException (cls msg : string).

#[global] Instance exn_eq_dec : EqDecision exn.
Proof. solve_decision. Defined.

(** [isinstance(e, Exception)] *)
Definition isinstance_Exception (e : exn) : bool :=
  match e with
  | KeyboardInterrupt | SystemExit | GeneratorExit => false
  | _ => true
  end.

(** [isinstance(e, ValueError)] *)
Definition isinstance_ValueError (e : exn) : bool :=
  match e with
  | ValueError _ | UnicodeDecodeError _ => true
  | _ => false
  end.

(** [isinstance(e, (KeyboardInterrupt, SystemExit))] *)
Definition isinstance_KeyboardInterrupt_SystemExit (e : exn) : bool :=
  match e with
  | KeyboardInterrupt | SystemExit => true
  | _ => false
  end.

(** How a call ends: it returns a value, it raises, or it has not returned
    (a call that blocks, such as [ioloop.start()]). *)
Inductive outcome (A : Type) : Type :=
| Return (a : A)
| Raise (e : exn)
| Blocked.
Arguments Return {A} a.
Arguments Raise {A} e.
Arguments Blocked {A}.

(** ** Handles and calls on the collaborators *)

Definition Connection := nat.
Definition Channel := nat.

(** The bound methods the consumer registers as callbacks. *)
Inductive Method : Type :=
| self_on_connection_open
| self_on_connection_closed
| self_reconnect
| self_on_channel_open
| self_on_channel_closed
| self_setup_queue
| self_on_queue_declareok
| self_on_bindok
| self_on_error_queue_declareok
| self_on_consumer_cancelled
| self_on_message
| self_on_cancelok.

#[global] Instance Method_eq_dec : EqDecision Method.
Proof. solve_decision. Defined.

(** Calls on a pika channel, with the arguments the source passes. *)
Inductive ChannelCall : Type :=
| basic_qos (prefetch_count : Z)
| channel_add_on_close_callback (callback : Method)
| exchange_declare (callback : Method) (exchange : string) (passive : bool)
| queue_declare (callback : Method) (queue : string) (durable exclusive : bool)
| queue_bind (callback : Method) (queue exchange routing_key : string)
| channel_add_on_cancel_callback (callback : Method)
| basic_consume (callback : Method) (queue : string)
| basic_ack (delivery_tag : Z)
| basic_publish (exchange routing_key body : value)
| basic_cancel (callback : Method) (consumer_tag : option string)
| channel_close.

#[global] Instance ChannelCall_eq_dec : EqDecision ChannelCall.
Proof. solve_decision. Defined.

(** Calls on a pika connection and on its [ioloop]. *)
Inductive ConnectionCall : Type :=
| connection_add_on_close_callback (callback : Method)
| add_timeout (deadline : Z) (callback : Method)
| channel (on_open_callback : Method)
| connection_close
| ioloop_stop
| ioloop_start.

#[global] Instance ConnectionCall_eq_dec : EqDecision ConnectionCall.
Proof. solve_decision. Defined.

Inductive Level : Type := DEBUG | INFO | WARNING | ERROR.

#[global] Instance Level_eq_dec : EqDecision Level.
Proof. solve_decision. Defined.

(** One constructor per logging call of the source, with the data the
    properties below speak about. *)
Inductive LogLine : Type :=
| L_connecting
| L_connection_opened
| L_adding_connection_close_callback
| L_connection_closed_reopening (reply_code : Z) (reply_text : string)
| L_creating_channel
| L_channel_opened
| L_adding_channel_close_callback
| L_channel_closed (ch : Channel) (reply_code : Z) (reply_text : string)
| L_declaring_queue (queue : string)
| L_binding (queue : string)
| L_queue_bound
| L_declaring_error_queue (queue : string)
| L_error_queue_created (queue : string)
| L_starting_consumer
| L_issuing_consumer_rpc
| L_waiting_for_messages
| L_adding_cancel_callback
| L_cancelled_remotely
| L_received (delivery_tag : Z) (text : string)
| L_acknowledging (delivery_tag : Z)
| L_invalid_json (body : string)
| L_sending_responses (n : nat)
| L_published (message : Message)
| L_unexpected_error (e : exn) (body : string)
| L_handling_time (ms : Z)
| L_avg_handling_time (avg : Z)
| L_sending_cancel
| L_cancel_acknowledged
| L_closing_channel
| L_run_exception (e : exn)
| L_run_exception_consumer
| L_stopping
| L_stopped
| L_closing_connection.

(** [basic_deliver]: the delivery tag is all the dispatcher reads. *)
Record Basic_Deliver : Type := { delivery_tag : Z }.

(** The two readings [int((time.time() - start) * 1000)] of one
    [on_message] call; the float arithmetic behind them is not modelled. *)
Record Clock : Type := {
  exec_time_millis : Z;   (* the reading added to the running total *)
  timing_millis : Z       (* the reading sent as message.process.time *)
}.

Section Consumer.

(** The decoded form of a body is whatever [json.loads] produces. *)
Context {Json : Type}.

(** [json.loads(body)]: [None] stands for the [ValueError] it raises. *)
Variable json_loads : string -> option Json.

(** [body.decode('utf-8')]: [None] stands for [UnicodeDecodeError]. *)
Variable decode_utf8 : string -> option string.

(** Everything a method does to the outside, in program order. *)
Inductive Event : Type :=
| Log (level : Level) (line : LogLine)
| Statsd_incr (stat : string)
| Statsd_timing (stat : string) (ms : Z)
| Json_loads (body : string)
| Callback_func (json_body : Json)
| OnChannel (ch : Channel) (call : ChannelCall)
| OnConnection (c : Connection) (call : ConnectionCall)
| SelectConnection (host : string) (port : Z) (virtual_host : string)
    (user pw : string) (socket_timeout retry_delay : Z)
    (on_open_callback : Method) (stop_ioloop_on_close : bool) (c : Connection)
| Internal_error_queue_put (consumer_id : Z).

(** The fields of a [RabbitConsumer], as [__init__] creates them.  The
    statsd client and the internal error queue are optional constructor
    arguments ([None] by default); only their presence matters. *)
Record Consumer : Type := {
  rabbit_port : Z;
  rabbit_host : string;
  rabbit_pw : string;
  rabbit_user : string;
  bot_id : string;
  exchange : string;
  callback_func : Json -> outcome (option (list Message));
  _closing : bool;
  stopped : bool;
  _connection : option Connection;
  _channel : option Channel;
  _consumer_tag : option string;
  queue_name : string;
  error_queue_name : string;
  consumer_id : Z;
  internal_error_queue : option unit;
  statsd : option unit;
  statsd_prefix : string;
  invocations : Z;
  total_execution_time : Z
}.

(** Assignment to a field: [self.f = v]. *)
Definition set_closing (v : bool) (self : Consumer) : Consumer :=
  {| rabbit_port := rabbit_port self; rabbit_host := rabbit_host self;
     rabbit_pw := rabbit_pw self; rabbit_user := rabbit_user self;
     bot_id := bot_id self; exchange := exchange self;
     callback_func := callback_func self; _closing := v;
     stopped := stopped self; _connection := _connection self;
     _channel := _channel self; _consumer_tag := _consumer_tag self;
     queue_name := queue_name self;
     error_queue_name := error_queue_name self;
     consumer_id := consumer_id self;
     internal_error_queue := internal_error_queue self;
     statsd := statsd self; statsd_prefix := statsd_prefix self;
     invocations := invocations self;
     total_execution_time := total_execution_time self |}.

Definition set_stopped (v : bool) (self : Consumer) : Consumer :=
  {| rabbit_port := rabbit_port self; rabbit_host := rabbit_host self;
     rabbit_pw := rabbit_pw self; rabbit_user := rabbit_user self;
     bot_id := bot_id self; exchange := exchange self;
     callback_func := callback_func self; _closing := _closing self;
     stopped := v; _connection := _connection self;
     _channel := _channel self; _consumer_tag := _consumer_tag self;
     queue_name := queue_name self;
     error_queue_name := error_queue_name self;
     consumer_id := consumer_id self;
     internal_error_queue := internal_error_queue self;
     statsd := statsd self; statsd_prefix := statsd_prefix self;
     invocations := invocations self;
     total_execution_time := total_execution_time self |}.

Definition set_connection (v : option Connection) (self : Consumer) : Consumer :=
  {| rabbit_port := rabbit_port self; rabbit_host := rabbit_host self;
     rabbit_pw := rabbit_pw self; rabbit_user := rabbit_user self;
     bot_id := bot_id self; exchange := exchange self;
     callback_func := callback_func self; _closing := _closing self;
     stopped := stopped self; _connection := v; _channel := _channel self;
     _consumer_tag := _consumer_tag self; queue_name := queue_name self;
     error_queue_name := error_queue_name self;
     consumer_id := consumer_id self;
     internal_error_queue := internal_error_queue self;
     statsd := statsd self; statsd_prefix := statsd_prefix self;
     invocations := invocations self;
     total_execution_time := total_execution_time self |}.

Definition set_channel (v : option Channel) (self : Consumer) : Consumer :=
  {| rabbit_port := rabbit_port self; rabbit_host := rabbit_host self;
     rabbit_pw := rabbit_pw self; rabbit_user := rabbit_user self;
     bot_id := bot_id self; exchange := exchange self;
     callback_func := callback_func self; _closing := _closing self;
     stopped := stopped self; _connection := _connection self; _channel := v;
     _consumer_tag := _consumer_tag self; queue_name := queue_name self;
     error_queue_name := error_queue_name self;
     consumer_id := consumer_id self;
     internal_error_queue := internal_error_queue self;
     statsd := statsd self; statsd_prefix := statsd_prefix self;
     invocations := invocations self;
     total_execution_time := total_execution_time self |}.

Definition set_consumer_tag (v : option string) (self : Consumer) : Consumer :=
  {| rabbit_port := rabbit_port self; rabbit_host := rabbit_host self;
     rabbit_pw := rabbit_pw self; rabbit_user := rabbit_user self;
     bot_id := bot_id self; exchange := exchange self;
     callback_func := callback_func self; _closing := _closing self;
     stopped := stopped self; _connection := _connection self;
     _channel := _channel self; _consumer_tag := v;
     queue_name := queue_name self;
     error_queue_name := error_queue_name self;
     consumer_id := consumer_id self;
     internal_error_queue := internal_error_queue self;
     statsd := statsd self; statsd_prefix := statsd_prefix self;
     invocations := invocations self;
     total_execution_time := total_execution_time self |}.

Definition set_invocations (v : Z) (self : Consumer) : Consumer :=
  {| rabbit_port := rabbit_port self; rabbit_host := rabbit_host self;
     rabbit_pw := rabbit_pw self; rabbit_user := rabbit_user self;
     bot_id := bot_id self; exchange := exchange self;
     callback_func := callback_func self; _closing := _closing self;
     stopped := stopped self; _connection := _connection self;
     _channel := _channel self; _consumer_tag := _consumer_tag self;
     queue_name := queue_name self;
     error_queue_name := error_queue_name self;
     consumer_id := consumer_id self;
     internal_error_queue := internal_error_queue self;
     statsd := statsd self; statsd_prefix := statsd_prefix self;
     invocations := v; total_execution_time := total_execution_time self |}.

Definition set_total_execution_time (v : Z) (self : Consumer) : Consumer :=
  {| rabbit_port := rabbit_port self; rabbit_host := rabbit_host self;
     rabbit_pw := rabbit_pw self; rabbit_user := rabbit_user self;
     bot_id := bot_id self; exchange := exchange self;
     callback_func := callback_func self; _closing := _closing self;
     stopped := stopped self; _connection := _connection self;
     _channel := _channel self; _consumer_tag := _consumer_tag self;
     queue_name := queue_name self;
     error_queue_name := error_queue_name self;
     consumer_id := consumer_id self;
     internal_error_queue := internal_error_queue self;
     statsd := statsd self; statsd_prefix := statsd_prefix self;
     invocations := invocations self; total_execution_time := v |}.

(** The same consumer with another handler. *)
Definition set_callback_func (v : Json -> outcome (option (list Message)))
    (self : Consumer) : Consumer :=
  {| rabbit_port := rabbit_port self; rabbit_host := rabbit_host self;
     rabbit_pw := rabbit_pw self; rabbit_user := rabbit_user self;
     bot_id := bot_id self; exchange := exchange self; callback_func := v;
     _closing := _closing self; stopped := stopped self;
     _connection := _connection self; _channel := _channel self;
     _consumer_tag := _consumer_tag self; queue_name := queue_name self;
     error_queue_name := error_queue_name self;
     consumer_id := consumer_id self;
     internal_error_queue := internal_error_queue self;
     statsd := statsd self; statsd_prefix := statsd_prefix self;
     invocations := invocations self;
     total_execution_time := total_execution_time self |}.

(** [__init__] *)
Definition __init__ (bot_id exchange : string)
    (callback_func : Json -> outcome (option (list Message)))
    (rabbit_user rabbit_pw rabbit_host : string) (rabbit_port : Z)
    (consumer_id : Z) (internal_error_queue statsd : option unit) : Consumer :=
  {| rabbit_port := rabbit_port; rabbit_host := rabbit_host;
     rabbit_pw := rabbit_pw; rabbit_user := rabbit_user;
     bot_id := bot_id; exchange := exchange; callback_func := callback_func;
     _closing := false; stopped := false;
     _connection := None; _channel := None; _consumer_tag := None;
     queue_name := exchange +:+ "-" +:+ bot_id;
     error_queue_name := "error-" +:+ bot_id +:+ "-" +:+ exchange;
     consumer_id := consumer_id;
     internal_error_queue := internal_error_queue;
     statsd := statsd;
     statsd_prefix := exchange +:+ ".";
     invocations := 0; total_execution_time := 0 |}.

(** ** Methods as computations

    A method takes the object, and gives how the call ended, the object
    afterwards and the calls it made.  Fields assigned and calls made
    before an exception stay assigned and made. *)
Definition M (A : Type) : Type :=
  Consumer -> outcome A * Consumer * list Event.

Definition ret {A} (a : A) : M A := fun self => (Return a, self, []).

Definition bind {A B} (m : M A) (k : A -> M B) : M B := fun self =>
  match m self with
  | (Return a, self1, t1) =>
      let '(o, self2, t2) := k a self1 in (o, self2, t1 ++ t2)
  | (Raise e, self1, t1) => (Raise e, self1, t1)
  | (Blocked, self1, t1) => (Blocked, self1, t1)
  end.

#[global] Instance M_ret : MRet M := @ret.
#[global] Instance M_bind : MBind M := fun A B k m => bind m k.

(** [raise e] *)
Definition raise {A} (e : exn) : M A := fun self => (Raise e, self, []).

(** A call to a collaborator. *)
Definition emit (ev : Event) : M unit := fun self => (Return tt, self, [ev]).

(** Reading a field, [self.f], and assigning one, [self.f = v]. *)
Definition gets {A} (f : Consumer -> A) : M A := fun self => (Return (f self), self, []).
Definition modify (f : Consumer -> Consumer) : M unit := fun self => (Return tt, f self, []).

(** The end of a call to the outside whose result the caller receives. *)
Definition lift {A} (o : outcome A) : M A := fun self => (o, self, []).

(** [try: body except C as e: handler(e)], where [catches] decides
    [isinstance(e, C)]. *)
Definition try_except {A} (body : M A) (catches : exn -> bool) (handler : exn -> M A) : M A :=
  fun self =>
  match body self with
  | (Raise e, self1, t1) =>
      if catches e
      then let '(o, self2, t2) := handler e self1 in (o, self2, t1 ++ t2)
      else (Raise e, self1, t1)
  | r => r
  end.

(** [try: body except C as e: handler(e) else: orelse]: the [else] suite
    runs when [body] raised nothing, outside the reach of the handler. *)
Definition try_except_else {A B} (body : M A) (catches : exn -> bool)
    (handler : exn -> M B) (orelse : A -> M B) : M B :=
  fun self =>
  match body self with
  | (Return a, self1, t1) =>
      let '(o, self2, t2) := orelse a self1 in (o, self2, t1 ++ t2)
  | (Raise e, self1, t1) =>
      if catches e
      then let '(o, self2, t2) := handler e self1 in (o, self2, t1 ++ t2)
      else (Raise e, self1, t1)
  | (Blocked, self1, t1) => (Blocked, self1, t1)
  end.

(** [for x in xs: body(x)] *)
Fixpoint for_each {A} (xs : list A) (body : A -> M unit) : M unit :=
  match xs with
  | [] => ret tt
  | x :: xs' => body x ;; for_each xs' body
  end.

(** Attribute access on [None] raises [AttributeError]. *)
Definition NoneType_has_no_attribute (name : string) : exn :=
  AttributeError ("'NoneType' object has no attribute '" +:+ name +:+ "'").

(** [logger.<level>(...)] *)
Definition log (level : Level) (line : LogLine) : M unit := emit (Log level line).

(** [self._channel.<call>(...)] *)
Definition channel_call (name : string) (call : ChannelCall) : M unit :=
  o ← gets _channel;
  match o with
  | Some ch => emit (OnChannel ch call)
  | None => raise (NoneType_has_no_attribute name)
  end.

(** [self._connection.<call>(...)] *)
Definition connection_call (name : string) (call : ConnectionCall) : M unit :=
  o ← gets _connection;
  match o with
  | Some c => emit (OnConnection c call)
  | None => raise (NoneType_has_no_attribute name)
  end.

(** [self.statsd.incr(self.statsd_prefix + stat)] *)
Definition statsd_incr (stat : string) : M unit :=
  prefix ← gets statsd_prefix;
  o ← gets statsd;
  match o with
  | Some _ => emit (Statsd_incr (prefix +:+ stat))
  | None => raise (NoneType_has_no_attribute "incr")
  end.

(** [self.statsd.timing(self.statsd_prefix + stat, ms)] *)
Definition statsd_timing (stat : string) (ms : Z) : M unit :=
  prefix ← gets statsd_prefix;
  o ← gets statsd;
  match o with
  | Some _ => emit (Statsd_timing (prefix +:+ stat) ms)
  | None => raise (NoneType_has_no_attribute "timing")
  end.

(** ** The message dispatcher *)

(** [acknowledge_message] *)
Definition acknowledge_message (delivery_tag : Z) : M unit :=
  log INFO (L_acknowledging delivery_tag);;
  channel_call "basic_ack" (basic_ack delivery_tag).

(** The body of the [for message in response_messages] loop.  A message
    is a dict, as the handler's contract has it: what the loop does on an
    element without [get] is outside this embedding. *)
Definition publish_response (message : Message) : M unit :=
  exchange ← gets exchange;
  queue_name ← gets queue_name;
  channel_call "basic_publish"
    (basic_publish (dict_get message "exchange" (VStr exchange))
                   (dict_get message "queue" (VStr queue_name))
                   (dict_get message "body" VNone));;
  log INFO (L_published message);;
  statsd_incr "message.publish".

(** [on_message].  [clock] holds the two elapsed-time readings. *)
Definition on_message (basic_deliver : Basic_Deliver) (body : string) (clock : Clock) : M unit :=
  (* start = time.time() *)
  n ← gets invocations;
  modify (set_invocations (n + 1));;
  text ← match decode_utf8 body with
         | Some text => ret text
         | None => raise (UnicodeDecodeError "'utf8' codec can't decode")
         end;
  log INFO (L_received (delivery_tag basic_deliver) text);;
  statsd_incr "message.receive";;
  acknowledge_message (delivery_tag basic_deliver);;
  try_except
    (try_except_else
       (emit (Json_loads body);;
        match json_loads body with
        | Some json_body => ret json_body
        | None => raise (ValueError "No JSON object could be decoded")
        end)
       isinstance_ValueError
       (fun ve => log ERROR (L_invalid_json body);; raise ve)
       (fun json_body =>
          emit (Callback_func json_body);;
          callback_func ← gets callback_func;
          response_messages ← lift (callback_func json_body);
          let response_messages := default [] response_messages in
          log INFO (L_sending_responses (length response_messages));;
          for_each response_messages publish_response))
    isinstance_Exception
    (fun e =>
       statsd_incr "message.error";;
       error_queue_name ← gets error_queue_name;
       log ERROR (L_unexpected_error e body);;
       channel_call "basic_publish"
         (basic_publish (VStr "") (VStr error_queue_name) (VStr body)));;
  total ← gets total_execution_time;
  modify (set_total_execution_time (total + exec_time_millis clock));;
  log DEBUG (L_handling_time (exec_time_millis clock));;
  n ← gets invocations;
  (if n mod 100 =? 0 then
     total ← gets total_execution_time;
     let average_execution_time := total / 100 in
     log INFO (L_avg_handling_time average_execution_time);;
     modify (set_total_execution_time 0)
   else ret tt);;
  statsd_timing "message.process.time" (timing_millis clock).

(** ** The connection and channel life cycle *)

(** [connect]: [fresh] is the handle [pika.SelectConnection(...)] returns. *)
Definition connect (fresh : Connection) : M Connection :=
  log INFO L_connecting;;
  user ← gets rabbit_user;
  pw ← gets rabbit_pw;
  host ← gets rabbit_host;
  port ← gets rabbit_port;
  emit (SelectConnection host port "/" user pw 1 5 self_on_connection_open false fresh);;
  ret fresh.

(** [add_on_connection_close_callback] *)
Definition add_on_connection_close_callback : M unit :=
  log INFO L_adding_connection_close_callback;;
  connection_call "add_on_close_callback"
    (connection_add_on_close_callback self_on_connection_closed).

(** [open_channel] *)
Definition open_channel : M unit :=
  log INFO L_creating_channel;;
  connection_call "channel" (channel self_on_channel_open).

(** [on_connection_open] *)
Definition on_connection_open (unused_connection : Connection) : M unit :=
  log INFO L_connection_opened;;
  add_on_connection_close_callback;;
  open_channel.

(** [on_connection_closed] *)
Definition on_connection_closed (connection : Connection) (reply_code : Z)
    (reply_text : string) : M unit :=
  modify (set_channel None);;
  closing ← gets _closing;
  if closing : bool then
    connection_call "ioloop" ioloop_stop
  else
    log WARNING (L_connection_closed_reopening reply_code reply_text);;
    connection_call "add_timeout" (add_timeout 5 self_reconnect).

(** [self._connection.ioloop.start()]: the call is recorded, then [ioloop]
    says what happens until it returns. *)
Definition start_ioloop (ioloop : Connection -> M unit) : M unit :=
  o ← gets _connection;
  match o with
  | Some c => emit (OnConnection c ioloop_start);; ioloop c
  | None => raise (NoneType_has_no_attribute "ioloop")
  end.

(** [reconnect] *)
Definition reconnect (ioloop : Connection -> M unit) (fresh : Connection) : M unit :=
  connection_call "ioloop" ioloop_stop;;
  closing ← gets _closing;
  if negb closing then
    c ← connect fresh;
    modify (set_connection (Some c));;
    start_ioloop ioloop
  else ret tt.

(** [setup_queues_and_bindings] *)
Definition setup_queues_and_bindings : M unit :=
  exchange ← gets exchange;
  channel_call "exchange_declare" (exchange_declare self_setup_queue exchange true).

(** [add_on_channel_close_callback] *)
Definition add_on_channel_close_callback : M unit :=
  log INFO L_adding_channel_close_callback;;
  channel_call "add_on_close_callback"
    (channel_add_on_close_callback self_on_channel_closed).

(** [DEFAULT_PREFETCH_COUNT] *)
Definition DEFAULT_PREFETCH_COUNT : Z := 1.

(** [on_channel_open] *)
Definition on_channel_open (channel : Channel) : M unit :=
  log INFO L_channel_opened;;
  modify (set_channel (Some channel));;
  channel_call "basic_qos" (basic_qos DEFAULT_PREFETCH_COUNT);;
  add_on_channel_close_callback;;
  setup_queues_and_bindings.

(** [on_channel_closed] *)
Definition on_channel_closed (channel : Channel) (reply_code : Z)
    (reply_text : string) : M unit :=
  log WARNING (L_channel_closed channel reply_code reply_text);;
  connection_call "close" connection_close.

(** [setup_queue]; the method frame it receives is not read. *)
Definition setup_queue : M unit :=
  queue_name ← gets queue_name;
  log INFO (L_declaring_queue queue_name);;
  channel_call "queue_declare"
    (queue_declare self_on_queue_declareok queue_name true false).

(** [on_queue_declareok] *)
Definition on_queue_declareok : M unit :=
  queue_name ← gets queue_name;
  exchange ← gets exchange;
  log INFO (L_binding queue_name);;
  channel_call "queue_bind" (queue_bind self_on_bindok queue_name exchange "").

(** [setup_error_queue] *)
Definition setup_error_queue : M unit :=
  error_queue_name ← gets error_queue_name;
  log INFO (L_declaring_error_queue error_queue_name);;
  channel_call "queue_declare"
    (queue_declare self_on_error_queue_declareok error_queue_name true false).

(** [on_bindok] *)
Definition on_bindok : M unit :=
  log INFO L_queue_bound;;
  setup_error_queue.

(** [add_on_cancel_callback] *)
Definition add_on_cancel_callback : M unit :=
  log INFO L_adding_cancel_callback;;
  channel_call "add_on_cancel_callback"
    (channel_add_on_cancel_callback self_on_consumer_cancelled).

(** [start_consuming]: [consumer_tag] is what [basic_consume] returns. *)
Definition start_consuming (consumer_tag : string) : M unit :=
  log INFO L_issuing_consumer_rpc;;
  add_on_cancel_callback;;
  log INFO L_waiting_for_messages;;
  queue_name ← gets queue_name;
  channel_call "basic_consume" (basic_consume self_on_message queue_name);;
  modify (set_consumer_tag (Some consumer_tag)).

(** [on_error_queue_declareok] *)
Definition on_error_queue_declareok (consumer_tag : string) : M unit :=
  error_queue_name ← gets error_queue_name;
  log INFO (L_error_queue_created error_queue_name);;
  log INFO L_starting_consumer;;
  start_consuming consumer_tag.

(** [on_consumer_cancelled]; [if self._channel:] is a test against
    [None], a pika channel defining no truth value of its own. *)
Definition on_consumer_cancelled : M unit :=
  log INFO L_cancelled_remotely;;
  o ← gets _channel;
  match o with
  | Some ch => emit (OnChannel ch channel_close)
  | None => ret tt
  end.

(** [stop_consuming] *)
Definition stop_consuming : M unit :=
  o ← gets _channel;
  match o with
  | Some ch =>
      log INFO L_sending_cancel;;
      tag ← gets _consumer_tag;
      emit (OnChannel ch (basic_cancel self_on_cancelok tag))
  | None => ret tt
  end.

(** [close_channel] *)
Definition close_channel : M unit :=
  log INFO L_closing_channel;;
  channel_call "close" channel_close.

(** [on_cancelok] *)
Definition on_cancelok : M unit :=
  log INFO L_cancel_acknowledged;;
  close_channel.

(** [stop] *)
Definition stop (ioloop : Connection -> M unit) : M unit :=
  log INFO L_stopping;;
  modify (set_closing true);;
  stop_consuming;;
  o ← gets _connection;
  match o with
  | Some c => emit (OnConnection c ioloop_start);; ioloop c
  | None => ret tt
  end;;
  modify (set_stopped true);;
  log INFO L_stopped.

(** [run]: the first [except] clause that matches handles the exception. *)
Definition run (ioloop : Connection -> M unit) (fresh : Connection) : M unit :=
  try_except
    (c ← connect fresh;
     modify (set_connection (Some c));;
     start_ioloop ioloop)
    (fun e => isinstance_KeyboardInterrupt_SystemExit e || isinstance_Exception e)
    (fun e =>
       if isinstance_KeyboardInterrupt_SystemExit e then stop ioloop
       else
         log WARNING (L_run_exception e);;
         log WARNING L_run_exception_consumer;;
         consumer_id ← gets consumer_id;
         q ← gets internal_error_queue;
         match q with
         | Some _ => emit (Internal_error_queue_put consumer_id)
         | None => raise (NoneType_has_no_attribute "put")
         end).

(** [close_connection] *)
Definition close_connection : M unit :=
  log INFO L_closing_connection;;
  connection_call "close" connection_close.

(** ** Runs of the event loop

    pika calls the consumer back; a callback is one of the bound methods
    with its arguments.  Where a method blocks in a nested
    [ioloop.start()], the callbacks that loop dispatches are the next
    callbacks of the run, and the method's own activation has not
    returned: [suspend]. *)
Inductive Callback : Type :=
| call_on_connection_open (unused_connection : Connection)
| call_on_connection_closed (connection : Connection) (reply_code : Z) (reply_text : string)
| call_reconnect (fresh : Connection)
| call_on_channel_open (channel : Channel)
| call_on_channel_closed (channel : Channel) (reply_code : Z) (reply_text : string)
| call_setup_queue
| call_on_queue_declareok
| call_on_bindok
| call_on_error_queue_declareok (consumer_tag : string)
| call_on_consumer_cancelled
| call_on_message (basic_deliver : Basic_Deliver) (body : string) (clock : Clock)
| call_on_cancelok.

Definition method_of (cb : Callback) : Method :=
  match cb with
  | call_on_connection_open _ => self_on_connection_open
  | call_on_connection_closed _ _ _ => self_on_connection_closed
  | call_reconnect _ => self_reconnect
  | call_on_channel_open _ => self_on_channel_open
  | call_on_channel_closed _ _ _ => self_on_channel_closed
  | call_setup_queue => self_setup_queue
  | call_on_queue_declareok => self_on_queue_declareok
  | call_on_bindok => self_on_bindok
  | call_on_error_queue_declareok _ => self_on_error_queue_declareok
  | call_on_consumer_cancelled => self_on_consumer_cancelled
  | call_on_message _ _ _ => self_on_message
  | call_on_cancelok => self_on_cancelok
  end.

Definition dispatch (ioloop : Connection -> M unit) (cb : Callback) : M unit :=
  match cb with
  | call_on_connection_open c => on_connection_open c
  | call_on_connection_closed c reply_code reply_text =>
      on_connection_closed c reply_code reply_text
  | call_reconnect fresh => reconnect ioloop fresh
  | call_on_channel_open ch => on_channel_open ch
  | call_on_channel_closed ch reply_code reply_text =>
      on_channel_closed ch reply_code reply_text
  | call_setup_queue => setup_queue
  | call_on_queue_declareok => on_queue_declareok
  | call_on_bindok => on_bindok
  | call_on_error_queue_declareok consumer_tag => on_error_queue_declareok consumer_tag
  | call_on_consumer_cancelled => on_consumer_cancelled
  | call_on_message basic_deliver body clock => on_message basic_deliver body clock
  | call_on_cancelok => on_cancelok
  end.

Definition suspend : Connection -> M unit := fun _ => lift Blocked.

(** One callback of a run: the object afterwards and the calls made. *)
Definition step (cb : Callback) (self : Consumer) : Consumer * list Event :=
  let '(_, self', t) := dispatch suspend cb self in (self', t).

(** The calls of one callback on channel [ch]. *)
Definition on_channel (ch : Channel) (ev : Event) : option ChannelCall :=
  match ev with
  | OnChannel ch' call => if decide (ch' = ch) then Some call else None
  | _ => None
  end.

(** The callback a request hands to pika for the broker's reply. *)
Definition reply_callback (call : ChannelCall) : option Method :=
  match call with
  | exchange_declare cb _ _ => Some cb
  | queue_declare cb _ _ _ => Some cb
  | queue_bind cb _ _ _ => Some cb
  | basic_cancel cb _ => Some cb
  | _ => None
  end.

(** A request with reply callback [m] has been made on [ch]. *)
Definition requested (t : list Event) (ch : Channel) (m : Method) : bool :=
  existsb (fun ev => match on_channel ch ev with
                     | Some call => bool_decide (reply_callback call = Some m)
                     | None => false
                     end) t.

(** Nothing has been called on [ch] yet. *)
Definition unused_channel (t : list Event) (ch : Channel) : bool :=
  forallb (fun ev => match on_channel ch ev with
                     | Some _ => false
                     | None => true
                     end) t.

(** What pika and the broker can do after the calls [t]: a reply callback
    runs for a request made on the channel the consumer holds, and a
    channel that opens is a new one.  The other callbacks are free. *)
Definition enabled (self : Consumer) (t : list Event) (cb : Callback) : bool :=
  match cb with
  | call_on_channel_open ch => unused_channel t ch
  | call_setup_queue | call_on_queue_declareok | call_on_bindok
  | call_on_error_queue_declareok _ | call_on_cancelok =>
      match _channel self with
      | Some ch => requested t ch (method_of cb)
      | None => false
      end
  | _ => true
  end.

(** The history of a run holds each callback with the calls it made. *)
Definition calls_of (h : list (Callback * list Event)) : list Event :=
  concat (map snd h).

(** Running the callbacks [cbs] in turn; [None] when one of them is not
    enabled where it comes. *)
Fixpoint run_callbacks (cbs : list Callback) (self : Consumer)
    (h : list (Callback * list Event))
    : option (Consumer * list (Callback * list Event)) :=
  match cbs with
  | [] => Some (self, h)
  | cb :: cbs' =>
      if enabled self (calls_of h) cb
      then let '(self', t) := step cb self in
           run_callbacks cbs' self' (h ++ [(cb, t)])
      else None
  end.

(** Deliveries handled one after the other; an exception that leaves
    [on_message] leaves the event loop, and the later deliveries are not
    handled. *)
Definition on_messages (deliveries : list (Basic_Deliver * string * Clock)) : M unit :=
  for_each deliveries (fun '(basic_deliver, body, clock) =>
                         on_message basic_deliver body clock).

End Consumer.

Arguments Consumer : clear implicits.
Arguments Event : clear implicits.
Arguments M : clear implicits.

Abbreviation History Json := (list (Callback * list (Event Json))).

(** ** The calls of one delivery, piece by piece

    The calls [on_message] makes on a consumer that has its statsd client
    and holds channel [ch], in the order it makes them. *)
Section Pieces.

Context {Json : Type}.
Implicit Types (self : Consumer Json) (ch : Channel).

(** Up to and including the acknowledgement. *)
Definition receipt_calls self ch (basic_deliver : Basic_Deliver) (text : string)
    : list (Event Json) :=
  [ Log INFO (L_received (delivery_tag basic_deliver) text);
    Statsd_incr (statsd_prefix self +:+ "message.receive");
    Log INFO (L_acknowledging (delivery_tag basic_deliver));
    OnChannel ch (basic_ack (delivery_tag basic_deliver)) ].

(** The publish of one response message. *)
Definition response_publish self (message : Message) : ChannelCall :=
  basic_publish (dict_get message "exchange" (VStr (exchange self)))
                (dict_get message "queue" (VStr (queue_name self)))
                (dict_get message "body" VNone).

(** One turn of the loop over the response messages. *)
Definition response_calls self ch (message : Message) : list (Event Json) :=
  [ OnChannel ch (response_publish self message);
    Log INFO (L_published message);
    Statsd_incr (statsd_prefix self +:+ "message.publish") ].

(** The publish to the error queue. *)
Definition error_publish self (body : string) : ChannelCall :=
  basic_publish (VStr "") (VStr (error_queue_name self)) (VStr body).

(** The [except Exception] suite. *)
Definition failure_calls self ch (e : exn) (body : string) : list (Event Json) :=
  [ Statsd_incr (statsd_prefix self +:+ "message.error");
    Log ERROR (L_unexpected_error e body);
    OnChannel ch (error_publish self body) ].

(** After the [try] statement, on a consumer whose counter is already
    incremented. *)
Definition accounting_calls self (clock : Clock) : list (Event Json) :=
  Log DEBUG (L_handling_time (exec_time_millis clock))
  :: (if invocations self mod 100 =? 0
      then [Log INFO (L_avg_handling_time
                        ((total_execution_time self + exec_time_millis clock) / 100))]
      else [])
  ++ [Statsd_timing (statsd_prefix self +:+ "message.process.time") (timing_millis clock)].

Definition accounted self (clock : Clock) : Consumer Json :=
  let self1 :=
    set_total_execution_time (total_execution_time self + exec_time_millis clock) self in
  if invocations self mod 100 =? 0
  then set_total_execution_time 0 self1
  else self1.

(** The consumer once the counter is incremented. *)
Definition counted self : Consumer Json :=
  set_invocations (invocations self + 1) self.

(** Classification of calls: a [basic_publish]; a call of [json.loads]
    or of the handler; a [statsd.incr] of the metric [stat]. *)
Definition is_publish (ev : Event Json) : bool :=
  match ev with
  | OnChannel _ (basic_publish _ _ _) => true
  | _ => false
  end.

Definition is_decode_or_handler (ev : Event Json) : bool :=
  match ev with
  | Json_loads _ | Callback_func _ => true
  | _ => false
  end.

Definition is_incr (stat : string) (ev : Event Json) : bool :=
  match ev with
  | Statsd_incr s => bool_decide (s = stat)
  | _ => false
  end.

(** Scheduling a timer, opening a connection, starting an event loop. *)
Definition is_restart_call (ev : Event Json) : bool :=
  match ev with
  | OnConnection _ (add_timeout _ _) => true
  | OnConnection _ ioloop_start => true
  | SelectConnection _ _ _ _ _ _ _ _ _ _ => true
  | _ => false
  end.

(** The calls of the dispatcher: logging, metrics, decoding, the handler,
    acknowledging and publishing. *)
Definition is_dispatcher_call (ev : Event Json) : bool :=
  match ev with
  | OnChannel _ (basic_ack _) | OnChannel _ (basic_publish _ _ _) => true
  | OnChannel _ _ | OnConnection _ _ | SelectConnection _ _ _ _ _ _ _ _ _ _
  | Internal_error_queue_put _ => false
  | _ => true
  end.

(** [connection.channel(...)]: the request for a new channel. *)
Definition is_channel_request (ev : Event Json) : bool :=
  match ev with
  | OnConnection _ (channel _) => true
  | _ => false
  end.

(** *** The ways a delivery goes

    [on_message_view basic_deliver body clock self r]: [r] is one of the
    eight results [on_message] can have on [self]. *)
Variable json_loads : string -> option Json.
Variable decode_utf8 : string -> option string.

Inductive on_message_view (basic_deliver : Basic_Deliver) (body : string)
    (clock : Clock) self : outcome unit * Consumer Json * list (Event Json) -> Prop :=
| view_undecodable :
    decode_utf8 body = None ->
    on_message_view basic_deliver body clock self
      (Raise (UnicodeDecodeError "'utf8' codec can't decode"), counted self, [])
| view_no_statsd text :
    decode_utf8 body = Some text -> statsd self = None ->
    on_message_view basic_deliver body clock self
      (Raise (NoneType_has_no_attribute "incr"), counted self,
       [Log INFO (L_received (delivery_tag basic_deliver) text)])
| view_no_channel text sd :
    decode_utf8 body = Some text -> statsd self = Some sd -> _channel self = None ->
    on_message_view basic_deliver body clock self
      (Raise (NoneType_has_no_attribute "basic_ack"), counted self,
       [Log INFO (L_received (delivery_tag basic_deliver) text);
        Statsd_incr (statsd_prefix self +:+ "message.receive");
        Log INFO (L_acknowledging (delivery_tag basic_deliver))])
| view_handled text sd ch json_body r :
    decode_utf8 body = Some text -> statsd self = Some sd -> _channel self = Some ch ->
    json_loads body = Some json_body -> callback_func self json_body = Return r ->
    on_message_view basic_deliver body clock self
      (Return tt, accounted (counted self) clock,
       receipt_calls self ch basic_deliver text
       ++ [Json_loads body; Callback_func json_body;
           Log INFO (L_sending_responses (length (default [] r)))]
       ++ flat_map (response_calls self ch) (default [] r)
       ++ accounting_calls (counted self) clock)
| view_malformed text sd ch :
    decode_utf8 body = Some text -> statsd self = Some sd -> _channel self = Some ch ->
    json_loads body = None ->
    on_message_view basic_deliver body clock self
      (Return tt, accounted (counted self) clock,
       receipt_calls self ch basic_deliver text
       ++ [Json_loads body; Log ERROR (L_invalid_json body)]
       ++ failure_calls self ch (ValueError "No JSON object could be decoded") body
       ++ accounting_calls (counted self) clock)
| view_handler_failed text sd ch json_body e :
    decode_utf8 body = Some text -> statsd self = Some sd -> _channel self = Some ch ->
    json_loads body = Some json_body -> callback_func self json_body = Raise e ->
    isinstance_Exception e = true ->
    on_message_view basic_deliver body clock self
      (Return tt, accounted (counted self) clock,
       receipt_calls self ch basic_deliver text
       ++ [Json_loads body; Callback_func json_body]
       ++ failure_calls self ch e body
       ++ accounting_calls (counted self) clock)
| view_handler_interrupted text sd ch json_body e :
    decode_utf8 body = Some text -> statsd self = Some sd -> _channel self = Some ch ->
    json_loads body = Some json_body -> callback_func self json_body = Raise e ->
    isinstance_Exception e = false ->
    on_message_view basic_deliver body clock self
      (Raise e, counted self,
       receipt_calls self ch basic_deliver text
       ++ [Json_loads body; Callback_func json_body])
| view_handler_blocked text sd ch json_body :
    decode_utf8 body = Some text -> statsd self = Some sd -> _channel self = Some ch ->
    json_loads body = Some json_body -> callback_func self json_body = Blocked ->
    on_message_view basic_deliver body clock self
      (Blocked, counted self,
       receipt_calls self ch basic_deliver text
       ++ [Json_loads body; Callback_func json_body]).

(** *** What the properties say of one delivery *)


(** Both rolling statistics are back at zero. *)
Definition rolling_stats_reset self : Prop :=
  invocations self = 0 /\ total_execution_time self = 0.

(** *** The topology requests

    The four requests of the setup and the consume request, as a consumer
    with the identity of [self] makes them, and the method that makes
    each. *)
Definition setup_request self (k : nat) : ChannelCall :=
  match k with
  | 0%nat => exchange_declare self_setup_queue (exchange self) true
  | 1%nat => queue_declare self_on_queue_declareok (queue_name self) true false
  | 2%nat => queue_bind self_on_bindok (queue_name self) (exchange self) ""
  | 3%nat => queue_declare self_on_error_queue_declareok (error_queue_name self) true false
  | _ => basic_consume self_on_message (queue_name self)
  end.

Definition setup_method (k : nat) : Method :=
  match k with
  | 0%nat => self_on_channel_open
  | 1%nat => self_setup_queue
  | 2%nat => self_on_queue_declareok
  | 3%nat => self_on_bindok
  | _ => self_on_error_queue_declareok
  end.

(** Declare, bind and consume requests. *)
Definition is_setup_call (call : ChannelCall) : bool :=
  match call with
  | exchange_declare _ _ _ | queue_declare _ _ _ _ | queue_bind _ _ _ _
  | basic_consume _ _ => true
  | _ => false
  end.

(** Callback number [i] of the history is [cb], and it made [call] on
    channel [ch]. *)
Definition issued_in (h : History Json) (i : nat) (cb : Callback) ch
    (call : ChannelCall) : Prop :=
  exists t, h !! i = Some (cb, t) /\ OnChannel ch call ∈ t.

(** The invariant of a run of a consumer with the identity of [self0]:
    the identity is kept; a request that expects a reply is a declare or
    a bind; and a declare, bind or consume request made on a channel is
    request number [k] of the setup, made by the method for it, and for
    [k > 0] request [k - 1] was made on that channel by an earlier
    callback. *)
Definition setup_chain (self0 self : Consumer Json) (h : History Json) : Prop :=
  (exchange self = exchange self0 /\ queue_name self = queue_name self0
   /\ error_queue_name self = error_queue_name self0)
  /\ (forall i cb ch call,
        issued_in h i cb ch call -> is_Some (reply_callback call) ->
        is_setup_call call = true)
  /\ (forall i cb ch call,
        issued_in h i cb ch call -> is_setup_call call = true ->
        exists k, (k <= 4)%nat /\ call = setup_request self0 k
          /\ method_of cb = setup_method k
          /\ (k = 0%nat -> cb = call_on_channel_open ch)
          /\ (forall k', k = S k' ->
                exists j cbj, (j < i)%nat /\ issued_in h j cbj ch (setup_request self0 k'))).

(** *** Vocabulary for the properties of the whole class *)

(** The fields [__init__] sets and no method assigns again. *)
Definition same_configuration self self' : Prop :=
  rabbit_port self' = rabbit_port self /\ rabbit_host self' = rabbit_host self
  /\ rabbit_pw self' = rabbit_pw self /\ rabbit_user self' = rabbit_user self
  /\ bot_id self' = bot_id self /\ exchange self' = exchange self
  /\ callback_func self' = callback_func self
  /\ queue_name self' = queue_name self
  /\ error_queue_name self' = error_queue_name self
  /\ consumer_id self' = consumer_id self
  /\ internal_error_queue self' = internal_error_queue self
  /\ statsd self' = statsd self /\ statsd_prefix self' = statsd_prefix self.

(** A call on a channel, whatever the call. *)
Definition is_on_channel (ev : Event Json) : bool :=
  match ev with
  | OnChannel _ _ => true
  | _ => false
  end.

(** [stop()] has completed quietly: it returned, both flags are set, and
    nothing was called on a channel. *)
Definition stop_completes_quietly
    (r : outcome unit * Consumer Json * list (Event Json)) : Prop :=
  r.1.1 = Return tt
  /\ _closing r.1.2 = true /\ stopped r.1.2 = true
  /\ List.filter is_on_channel r.2 = [].

(** [statsd.timing(...)] *)
Definition is_statsd_timing (ev : Event Json) : bool :=
  match ev with
  | Statsd_timing _ _ => true
  | _ => false
  end.

(** The deliveries among the callbacks of a run. *)
Definition is_delivery (cb : Callback) : bool :=
  match cb with
  | call_on_message _ _ _ => true
  | _ => false
  end.

(** The readings [exec_time_millis] of a list of deliveries, and a sum. *)
Definition readings (deliveries : list (Basic_Deliver * string * Clock)) : list Z :=
  map (fun d => exec_time_millis d.2) deliveries.

Definition Z_sum (l : list Z) : Z := foldr Z.add 0 l.

(** The deliveries after the last one whose number is a multiple of 100. *)
Definition since_last_hundred {A} (l : list A) : list A :=
  drop (100 * (length l / 100)) l.

(** The calls made on channel [ch], in order. *)
Definition calls_on (ch : Channel) (t : list (Event Json)) : list ChannelCall :=
  omap (on_channel ch) t.

(** What the event loop dispatches during a clean shutdown of a consumer
    on channel [ch]: the broker acknowledges the cancel, pika reports
    the channel closed, then the connection closed. *)
Definition clean_shutdown (ch : Channel) (reply_code : Z) (reply_text : string)
    : Connection -> M Json unit :=
  fun c =>
    on_cancelok;;
    on_channel_closed ch reply_code reply_text;;
    on_connection_closed c reply_code reply_text.

(** What follows a cancel by the broker on channel [ch] of connection
    [c]: the cancel notification, then the closures it causes. *)
Definition cancel_cascade (ch : Channel) (c : Connection) (reply_code : Z)
    (reply_text : string) : M Json unit :=
  on_consumer_cancelled;;
  on_channel_closed ch reply_code reply_text;;
  on_connection_closed c reply_code reply_text.

End Pieces.

(** ** A consumer to run

    A handler and codecs for evaluating the model: bodies are ASCII, the
    decoded form of a body is the body itself, and the handler answers by
    the body it is given. *)
Module Demo.

Definition json_loads (body : string) : option string :=
  if existsb (String.eqb body) ["1"; "2"; "3"; "null"; "[]"] then Some body else None.

Definition decode_utf8 (body : string) : option string :=
  if forallb (fun a => (Ascii.nat_of_ascii a <? 128)%nat) (list_ascii_of_string body)
  then Some body else None.

Definition reply : Message :=
  {[ "exchange" := VStr "replies"; "queue" := VStr "replies-q"; "body" := VStr "pong" ]}.

Definition echo : Message := {[ "body" := VStr "echo" ]}.

Definition callback_func (json_body : string) : outcome (option (list Message)) :=
  if String.eqb json_body "1" then Return (Some [reply; echo])
  else if String.eqb json_body "2" then Raise (OtherException "RuntimeError" "boom")
  else if String.eqb json_body "3" then Raise KeyboardInterrupt
  else if String.eqb json_body "null" then Return None
  else Return (Some []).

(** A consumer as constructed, with a statsd client. *)
Definition fresh : Consumer string :=
  __init__ "bot" "chat" callback_func "guest" "guest" "localhost" 5672 0 None (Some tt).

(** The same consumer on connection 1 with channel 7 open. *)
Definition consuming : Consumer string :=
  set_consumer_tag (Some "ctag1")
    (set_channel (Some 7%nat) (set_connection (Some 1%nat) fresh)).

Definition delivery (tag : Z) : Basic_Deliver := {| delivery_tag := tag |}.

Definition clock : Clock := {| exec_time_millis := 3; timing_millis := 4 |}.

(** The broker opening channel 7 and acknowledging each request of the
    setup in turn. *)
Definition setup : list Callback :=
  [call_on_channel_open 7%nat; call_setup_queue; call_on_queue_declareok;
   call_on_bindok; call_on_error_queue_declareok "ctag1"].

(** The consumer as constructed once [run()] has stored connection 1: the
    connection is opening, no channel is held yet. *)
Definition connecting : Consumer string := set_connection (Some 1%nat) fresh.

(** An event loop that goes on opening the connection: the connection
    opens, channel 7 opens, the setup is acknowledged step by step, and
    the loop then waits for deliveries. *)
Definition opening_loop : Connection -> M string unit :=
  fun c =>
    on_connection_open c;;
    on_channel_open 7%nat;;
    setup_queue;;
    on_queue_declareok;;
    on_bindok;;
    on_error_queue_declareok "ctag1";;
    lift Blocked.

(** An event loop in which the pending [reconnect] timer fires, the
    connection having closed before. *)
Definition timer_loop : Connection -> M string unit :=
  fun _ => reconnect suspend 2%nat.

(** The setup, then a delivery the handler answers and a malformed one. *)
Definition session : list Callback :=
  setup ++ [call_on_message (delivery 1) "1" clock;
            call_on_message (delivery 2) "{" clock].

(** An event loop out of which a [RuntimeError] comes. *)
Definition failing_loop : Connection -> M string unit :=
  fun _ => raise (OtherException "RuntimeError" "boom").

(** A hundred deliveries of the body ["null"]. *)
Definition hundred : list (Basic_Deliver * string * Clock) :=
  replicate 100 (delivery 1, "null", clock).

End Demo.

(** * Properties

    First [on_message] case by case, then the properties of one delivery,
    the rolling statistics, the callbacks of the life cycle, and runs of
    callbacks. *)
Section Properties.

Context {Json : Type}.
Variable json_loads : string -> option Json.
Variable decode_utf8 : string -> option string.
Implicit Types (self : Consumer Json) (ch : Channel) (body : string)
  (basic_deliver : Basic_Deliver) (clock : Clock) (t : list (Event Json)).

Local Abbreviation on_message := (on_message json_loads decode_utf8).

(** Unfolding the combinators of [M]. *)
Ltac unfold_M :=
  unfold mbind, M_bind, mret, M_ret, bind, ret, raise, emit, gets, modify,
    lift, log, try_except, try_except_else in *.

Lemma bind_Return {A B} (m : M Json A) (k : A -> M Json B) self a self1 t1 :
  m self = (Return a, self1, t1) ->
  (m ≫= k) self = (let '(o, self2, t2) := k a self1 in (o, self2, t1 ++ t2)).
Proof. intros H. unfold_M. rewrite H. reflexivity. Qed.

Lemma publish_response_ok (message : Message) self ch sd :
  _channel self = Some ch -> statsd self = Some sd ->
  publish_response message self = (Return tt, self, response_calls self ch message).
Proof.
  intros Hch Hsd. unfold publish_response, channel_call, statsd_incr. unfold_M.
  rewrite Hch. cbn. rewrite Hsd. reflexivity.
Qed.

Lemma for_each_publish_response (messages : list Message) self ch sd :
  _channel self = Some ch -> statsd self = Some sd ->
  for_each messages publish_response self
  = (Return tt, self, flat_map (response_calls self ch) messages).
Proof.
  intros Hch Hsd. induction messages as [|message messages IH]; [reflexivity|].
  cbn [for_each flat_map].
  rewrite (bind_Return _ _ _ _ _ _ (publish_response_ok message self ch sd Hch Hsd)).
  rewrite IH. reflexivity.
Qed.


(** The delivery is dropped before the acknowledgement: the body is not
    UTF-8, there is no statsd client, or no channel is held. *)
Lemma on_message_undecodable basic_deliver body clock self :
  decode_utf8 body = None ->
  on_message basic_deliver body clock self
  = (Raise (UnicodeDecodeError "'utf8' codec can't decode"), counted self, []).
Proof.
  intros Hdec. unfold on_message. unfold_M. rewrite Hdec. reflexivity.
Qed.

Lemma on_message_no_statsd basic_deliver body clock self text :
  decode_utf8 body = Some text -> statsd self = None ->
  on_message basic_deliver body clock self
  = (Raise (NoneType_has_no_attribute "incr"), counted self,
     [Log INFO (L_received (delivery_tag basic_deliver) text)]).
Proof.
  intros Hdec Hsd. unfold on_message, statsd_incr. unfold_M.
  rewrite Hdec. cbn. rewrite Hsd. reflexivity.
Qed.

Lemma on_message_no_channel basic_deliver body clock self text sd :
  decode_utf8 body = Some text -> statsd self = Some sd -> _channel self = None ->
  on_message basic_deliver body clock self
  = (Raise (NoneType_has_no_attribute "basic_ack"), counted self,
     [Log INFO (L_received (delivery_tag basic_deliver) text);
      Statsd_incr (statsd_prefix self +:+ "message.receive");
      Log INFO (L_acknowledging (delivery_tag basic_deliver))]).
Proof.
  intros Hdec Hsd Hch.
  unfold on_message, acknowledge_message, statsd_incr, channel_call. unfold_M.
  rewrite Hdec. cbn. rewrite Hsd. cbn. rewrite Hch. reflexivity.
Qed.

(** Stepping through [on_message] on a consumer that reaches the [try]. *)
Ltac enter_on_message Hdec Hsd Hch :=
  unfold on_message, acknowledge_message, statsd_incr, statsd_timing, channel_call;
  unfold_M; rewrite Hdec; cbn -[for_each]; rewrite Hsd; cbn -[for_each];
  rewrite Hch; cbn -[for_each].

(** The handler returned: its messages are published, then the accounts. *)
Lemma on_message_handled basic_deliver body clock self text sd ch json_body r :
  decode_utf8 body = Some text -> statsd self = Some sd -> _channel self = Some ch ->
  json_loads body = Some json_body -> callback_func self json_body = Return r ->
  on_message basic_deliver body clock self
  = (Return tt, accounted (counted self) clock,
     receipt_calls self ch basic_deliver text
     ++ [Json_loads body; Callback_func json_body;
         Log INFO (L_sending_responses (length (default [] r)))]
     ++ flat_map (response_calls self ch) (default [] r)
     ++ accounting_calls (counted self) clock).
Proof.
  intros Hdec Hsd Hch Hjson Hcb. enter_on_message Hdec Hsd Hch.
  rewrite Hjson. cbn -[for_each]. rewrite Hcb. cbn -[for_each].
  rewrite (for_each_publish_response _ (set_invocations (invocations self + 1) self) ch sd Hch Hsd).
  unfold accounted, counted, accounting_calls, receipt_calls, response_calls. cbn.
  destruct ((invocations self + 1) mod 100 =? 0); cbn; rewrite Hsd; reflexivity.
Qed.

(** The body is not JSON: the failure suite, then the accounts. *)
Lemma on_message_malformed basic_deliver body clock self text sd ch :
  decode_utf8 body = Some text -> statsd self = Some sd -> _channel self = Some ch ->
  json_loads body = None ->
  on_message basic_deliver body clock self
  = (Return tt, accounted (counted self) clock,
     receipt_calls self ch basic_deliver text
     ++ [Json_loads body; Log ERROR (L_invalid_json body)]
     ++ failure_calls self ch (ValueError "No JSON object could be decoded") body
     ++ accounting_calls (counted self) clock).
Proof.
  intros Hdec Hsd Hch Hjson. enter_on_message Hdec Hsd Hch.
  rewrite Hjson. cbn. rewrite Hsd. cbn. rewrite Hch. cbn.
  unfold accounted, counted, accounting_calls, receipt_calls, failure_calls. cbn.
  destruct ((invocations self + 1) mod 100 =? 0); cbn; rewrite Hsd; reflexivity.
Qed.

(** The handler raised an [Exception]: the failure suite, then the accounts. *)
Lemma on_message_handler_failed basic_deliver body clock self text sd ch json_body e :
  decode_utf8 body = Some text -> statsd self = Some sd -> _channel self = Some ch ->
  json_loads body = Some json_body -> callback_func self json_body = Raise e ->
  isinstance_Exception e = true ->
  on_message basic_deliver body clock self
  = (Return tt, accounted (counted self) clock,
     receipt_calls self ch basic_deliver text
     ++ [Json_loads body; Callback_func json_body]
     ++ failure_calls self ch e body
     ++ accounting_calls (counted self) clock).
Proof.
  intros Hdec Hsd Hch Hjson Hcb He. enter_on_message Hdec Hsd Hch.
  rewrite Hjson. cbn. rewrite Hcb. cbn. rewrite He. cbn. rewrite Hsd. cbn. rewrite Hch. cbn.
  unfold accounted, counted, accounting_calls, receipt_calls, failure_calls. cbn.
  destruct ((invocations self + 1) mod 100 =? 0); cbn; rewrite Hsd; reflexivity.
Qed.

(** The handler raised past [except Exception]: the exception leaves
    [on_message]. *)
Lemma on_message_handler_interrupted basic_deliver body clock self text sd ch json_body e :
  decode_utf8 body = Some text -> statsd self = Some sd -> _channel self = Some ch ->
  json_loads body = Some json_body -> callback_func self json_body = Raise e ->
  isinstance_Exception e = false ->
  on_message basic_deliver body clock self
  = (Raise e, counted self,
     receipt_calls self ch basic_deliver text ++ [Json_loads body; Callback_func json_body]).
Proof.
  intros Hdec Hsd Hch Hjson Hcb He. enter_on_message Hdec Hsd Hch.
  rewrite Hjson. cbn. rewrite Hcb. cbn. rewrite He. reflexivity.
Qed.

(** The handler has not returned. *)
Lemma on_message_handler_blocked basic_deliver body clock self text sd ch json_body :
  decode_utf8 body = Some text -> statsd self = Some sd -> _channel self = Some ch ->
  json_loads body = Some json_body -> callback_func self json_body = Blocked ->
  on_message basic_deliver body clock self
  = (Blocked, counted self,
     receipt_calls self ch basic_deliver text ++ [Json_loads body; Callback_func json_body]).
Proof.
  intros Hdec Hsd Hch Hjson Hcb. enter_on_message Hdec Hsd Hch.
  rewrite Hjson. cbn. rewrite Hcb. reflexivity.
Qed.


Lemma on_message_view_ok basic_deliver body clock self :
  on_message_view json_loads decode_utf8 basic_deliver body clock self
    (on_message basic_deliver body clock self).
Proof.
  destruct (decode_utf8 body) as [text|] eqn:Hdec;
    [|rewrite on_message_undecodable by done; by constructor].
  destruct (statsd self) as [sd|] eqn:Hsd;
    [|erewrite on_message_no_statsd by done; by econstructor].
  destruct (_channel self) as [ch|] eqn:Hch;
    [|erewrite on_message_no_channel by done; by econstructor].
  destruct (json_loads body) as [json_body|] eqn:Hjson;
    [|erewrite on_message_malformed by done; by econstructor].
  destruct (callback_func self json_body) as [r|e|] eqn:Hcb.
  - erewrite on_message_handled by done. by econstructor.
  - destruct (isinstance_Exception e) eqn:He.
    + erewrite on_message_handler_failed by done. by econstructor.
    + erewrite on_message_handler_interrupted by done. by econstructor.
  - erewrite on_message_handler_blocked by done. by econstructor.
Qed.


Lemma result_eta {A B C} (r : A * B * C) : r = (r.1.1, r.1.2, r.2).
Proof. by destruct r as [[a b] c]. Qed.

Lemma result_eq {A B C} (a a' : A) (b b' : B) (c c' : C) :
  (a, b, c) = (a', b', c') -> a = a' /\ b = b' /\ c = c'.
Proof. by intros [= -> -> ->]. Qed.

(** Case analysis on a run of [on_message], keeping the calls in the
    pieces they are stated in. *)
Ltac view_cases Hrun :=
  let V := fresh "V" in
  let r := fresh "r" in
  let Hr := fresh "Hr" in
  match type of Hrun with
  | on_message ?bd ?body ?clock ?self = ?res =>
      pose proof (on_message_view_ok bd body clock self) as V;
      rewrite Hrun in V; remember res as r eqn:Hr; destruct V;
      apply result_eq in Hr as (? & ? & ?); subst
  end.

(** *** Membership in the pieces of a delivery's calls *)

Lemma elem_of_flat_map {A B} (f : A -> list B) (l : list A) (y : B) :
  y ∈ flat_map f l <-> exists x, x ∈ l /\ y ∈ f x.
Proof.
  split.
  - intros H. apply list_elem_of_In, in_flat_map in H as (x & Hx & Hy).
    exists x. by rewrite !list_elem_of_In.
  - intros (x & Hx & Hy). apply list_elem_of_In, in_flat_map.
    exists x. by rewrite <- !list_elem_of_In.
Qed.




(** Taking a membership in a delivery's calls apart. *)
Ltac elem_cases H :=
  unfold receipt_calls, response_calls, failure_calls, accounting_calls in H;
  repeat first
    [ apply elem_of_nil in H; destruct H
    | apply elem_of_cons in H as [H|H]
    | apply elem_of_app in H as [H|H]
    | apply elem_of_flat_map in H as (? & _ & H)
    | match type of H with
      | _ ∈ (if ?b then _ else _) => destruct b
      end ];
  try discriminate H.


(** A call of the handler is on the decoded body. *)
Lemma handler_invoked basic_deliver body clock self o self' t json_body :
  on_message basic_deliver body clock self = (o, self', t) ->
  Callback_func json_body ∈ t ->
  json_loads body = Some json_body
  /\ exists text sd ch,
       decode_utf8 body = Some text /\ statsd self = Some sd /\ _channel self = Some ch.
Proof.
  intros Hrun Hin.
  pose proof (on_message_view_ok basic_deliver body clock self) as V.
  rewrite Hrun in V.
  inversion V; subst; elem_cases Hin; injection Hin as ->; eauto 10.
Qed.


(** *** Counting the publishes and the metrics of a delivery *)

Lemma append_inj_l (p a b : string) : p +:+ a = p +:+ b -> a = b.
Proof. induction p as [|c p IH]; cbn; [done|]. intros [= H]. auto. Qed.

Lemma bool_decide_prefix (p a b : string) :
  bool_decide (p +:+ a = p +:+ b) = bool_decide (a = b).
Proof. apply bool_decide_ext. split; [apply append_inj_l|by intros ->]. Qed.

Lemma publishes_of_responses self ch (messages : list Message) :
  List.filter is_publish (flat_map (response_calls self ch) messages)
  = map (fun message => OnChannel ch (response_publish self message)) messages.
Proof. induction messages as [|m ms IH]; cbn; [done|]. by rewrite IH. Qed.

Lemma publish_metrics_of_responses self ch (messages : list Message) :
  List.filter (is_incr (statsd_prefix self +:+ "message.publish"))
    (flat_map (response_calls self ch) messages)
  = map (fun _ => Statsd_incr (statsd_prefix self +:+ "message.publish")) messages.
Proof.
  induction messages as [|m ms IH]; [done|].
  cbn [flat_map]. rewrite List.filter_app, IH. unfold response_calls.
  cbn [List.filter app map is_incr]. rewrite bool_decide_prefix. done.
Qed.

Lemma error_metrics_of_responses self ch (messages : list Message) :
  List.filter (is_incr (statsd_prefix self +:+ "message.error"))
    (flat_map (response_calls self ch) messages) = [].
Proof.
  induction messages as [|m ms IH]; [done|].
  cbn [flat_map]. rewrite List.filter_app, IH. unfold response_calls.
  cbn [List.filter app is_incr]. rewrite bool_decide_prefix. done.
Qed.

Lemma publishes_of_accounting self clock :
  List.filter is_publish (accounting_calls self clock) = [].
Proof. unfold accounting_calls. by destruct (_ =? _). Qed.

Lemma incrs_of_accounting self clock stat :
  List.filter (is_incr stat) (accounting_calls self clock) = [].
Proof. unfold accounting_calls. by destruct (_ =? _). Qed.

Lemma incrs_of_receipt self ch basic_deliver text stat :
  stat <> "message.receive" ->
  List.filter (is_incr (statsd_prefix self +:+ stat))
    (receipt_calls self ch basic_deliver text) = [].
Proof.
  intros Hne. unfold receipt_calls. cbn [List.filter is_incr].
  rewrite bool_decide_prefix, bool_decide_false by congruence. done.
Qed.

(** Rewriting the filters of a delivery's calls piece by piece. *)
Ltac count_calls :=
  unfold receipt_calls, failure_calls;
  repeat (cbn [fst snd List.filter is_publish is_incr app];
          rewrite ?bool_decide_prefix;
          cbn [bool_decide decide_rel];
          rewrite ?List.filter_app, ?publishes_of_responses, ?publishes_of_accounting,
            ?incrs_of_accounting, ?publish_metrics_of_responses,
            ?error_metrics_of_responses);
  cbn.



(** [C3] For every delivery whose body decodes and whose handler returns
    a list of N messages: [on_message] makes exactly N [basic_publish]
    calls, one per message and in the order of the list, and the
    [message.process.time] timing metric is the last call, after all of
    them. *)
Theorem C3_publishes_in_order_before_timing basic_deliver body clock self o self' t
    json_body (messages : list Message) :
  on_message basic_deliver body clock self = (o, self', t) ->
  Callback_func json_body ∈ t ->
  callback_func self json_body = Return (Some messages) ->
  o = Return tt
  /\ exists ch before,
       _channel self = Some ch
       /\ List.filter is_publish t
          = map (fun message => OnChannel ch (response_publish self message)) messages
       /\ length (List.filter is_publish t) = length messages
       /\ t = before ++ [Statsd_timing (statsd_prefix self +:+ "message.process.time")
                           (timing_millis clock)]
       /\ List.filter is_publish before = List.filter is_publish t.
Proof.
  intros Hrun Hin Hcb.
  destruct (handler_invoked _ _ _ _ _ _ _ _ Hrun Hin)
    as (Hjson & text & sd & ch & Hdec & Hsd & Hch).
  rewrite (on_message_handled _ _ _ _ _ _ _ _ _ Hdec Hsd Hch Hjson Hcb) in Hrun.
  injection Hrun as <- <- <-. split; [done|].
  exists ch.
  eexists (receipt_calls self ch basic_deliver text
           ++ [Json_loads body; Callback_func json_body;
               Log INFO (L_sending_responses (length messages))]
           ++ flat_map (response_calls self ch) messages
           ++ removelast (accounting_calls (counted self) clock)).
  assert (Hlast : accounting_calls (counted self) clock
                  = removelast (accounting_calls (counted self) clock)
                    ++ [Statsd_timing (statsd_prefix self +:+ "message.process.time")
                          (timing_millis clock)]).
  { unfold accounting_calls. by destruct (_ =? _). }
  assert (Hnone : List.filter is_publish (removelast (accounting_calls (counted self) clock))
                  = []).
  { unfold accounting_calls. by destruct (_ =? _). }
  split; [done|]. cbn [default].
  split; [by count_calls; rewrite app_nil_r|].
  split; [count_calls; by rewrite app_nil_r, length_map|].
  split.
  - rewrite Hlast at 1. by rewrite <- !app_assoc.
  - rewrite !List.filter_app, Hnone. by count_calls.
Qed.

(** [C9] For every delivery whose handler returns messages, each message
    is published to the exchange stored under its key ['exchange'] and
    with the routing key stored under its key ['queue'] when the key is
    present, and otherwise to the consumer's own exchange and with the
    consumer's own queue name; the body is the value under ['body'].  One
    [message.publish] metric is emitted per message. *)
Theorem C9_publish_targets_and_metric basic_deliver body clock self o self' t
    json_body (messages : list Message) :
  on_message basic_deliver body clock self = (o, self', t) ->
  Callback_func json_body ∈ t ->
  callback_func self json_body = Return (Some messages) ->
  exists ch,
    _channel self = Some ch
    /\ List.filter is_publish t
       = map (fun message : Message =>
                OnChannel ch
                  (basic_publish
                     (default (VStr (exchange self)) (message !! "exchange"))
                     (default (VStr (queue_name self)) (message !! "queue"))
                     (default VNone (message !! "body"))))
             messages
    /\ List.filter (is_incr (statsd_prefix self +:+ "message.publish")) t
       = map (fun _ => Statsd_incr (statsd_prefix self +:+ "message.publish")) messages.
Proof.
  intros Hrun Hin Hcb.
  destruct (handler_invoked _ _ _ _ _ _ _ _ Hrun Hin)
    as (Hjson & text & sd & ch & Hdec & Hsd & Hch).
  rewrite (on_message_handled _ _ _ _ _ _ _ _ _ Hdec Hsd Hch Hjson Hcb) in Hrun.
  injection Hrun as <- <- <-. exists ch. split; [done|]. cbn [default]. split.
  - count_calls. rewrite app_nil_r. apply map_ext. intros message.
    unfold response_publish, dict_get. by repeat destruct (message !! _).
  - count_calls. by rewrite app_nil_r.
Qed.

(** [C8] A handler that returns [None] is treated as one that returns the
    empty list: whatever [on_message] does on a consumer whose handler
    returns [None] for the decoded body, it does the same (same end, same
    calls, same fields) when the handler returns [[]] instead; no publish
    is made, no [message.publish] metric and no [message.error] metric is
    emitted. *)
Theorem C8_none_is_empty_sequence basic_deliver body clock self json_body
    (handler : Json -> outcome (option (list Message))) :
  json_loads body = Some json_body ->
  callback_func self json_body = Return None ->
  handler json_body = Return (Some []) ->
  let '(o, self', t) := on_message basic_deliver body clock self in
  on_message basic_deliver body clock (set_callback_func handler self)
  = (o, set_callback_func handler self', t)
  /\ List.filter is_publish t = []
  /\ List.filter (is_incr (statsd_prefix self +:+ "message.publish")) t = []
  /\ List.filter (is_incr (statsd_prefix self +:+ "message.error")) t = [].
Proof.
  intros Hjson Hnone Hempty.
  destruct (decode_utf8 body) as [text|] eqn:Hdec.
  2: { rewrite !on_message_undecodable by done. done. }
  destruct (statsd self) as [sd|] eqn:Hsd.
  2: { rewrite !(on_message_no_statsd _ _ _ _ text) by done. done. }
  destruct (_channel self) as [ch|] eqn:Hch.
  2: { rewrite !(on_message_no_channel _ _ _ _ text sd) by done.
       split; [done|]. by count_calls. }
  rewrite (on_message_handled _ _ _ self _ _ _ _ _ Hdec Hsd Hch Hjson Hnone).
  rewrite (on_message_handled _ _ _ (set_callback_func handler self) text sd ch
             json_body (Some [])) by done.
  split.
  - unfold accounted, counted. cbn. by destruct (_ =? _).
  - cbn [default flat_map]. split; [by count_calls|]. split; by count_calls.
Qed.


(** *** The rolling statistics *)

Lemma bind_Return_inv {A B} (m : M Json A) (k : A -> M Json B) self b self2 t :
  (m ≫= k) self = (Return b, self2, t) ->
  exists a self1 t1 t2,
    m self = (Return a, self1, t1) /\ k a self1 = (Return b, self2, t2) /\ t = t1 ++ t2.
Proof.
  unfold_M. destruct (m self) as [[[a|e|] self1] t1]; [|done..].
  destruct (k a self1) as [[o self2'] t2] eqn:Hk. intros [= -> -> <-]. eauto 10.
Qed.

(** A delivery that [on_message] returns from has gone through the
    accounts. *)
Lemma on_message_returns basic_deliver body clock self self' t :
  on_message basic_deliver body clock self = (Return tt, self', t) ->
  self' = accounted (counted self) clock
  /\ exists before, t = before ++ accounting_calls (counted self) clock.
Proof.
  intros Hrun. view_cases Hrun; try discriminate.
  all: split; [done|]; eexists; rewrite ?app_assoc; reflexivity.
Qed.

Lemma on_messages_invocations deliveries self self' t :
  on_messages json_loads decode_utf8 deliveries self = (Return tt, self', t) ->
  invocations self' = invocations self + Z.of_nat (length deliveries).
Proof.
  revert self t. induction deliveries as [|[[basic_deliver body] clock] ds IH];
    intros self t Hrun.
  - injection Hrun as <- _. cbn. lia.
  - cbn [on_messages for_each] in Hrun.
    apply bind_Return_inv in Hrun as ([] & self1 & t1 & t2 & H1 & H2 & _).
    apply on_message_returns in H1 as [-> _].
    apply IH in H2. rewrite H2. unfold accounted, counted.
    destruct (_ =? _); cbn [length]; cbn; lia.
Qed.

(** [C4] (as amended) On a consumer whose invocation count starts at 0,
    after deliveries that [on_message] returned from, the next delivery it
    returns from is invocation number n = (deliveries so far) + 1, and the
    invocation count is n: the count is not reset.  When n is a multiple
    of 100, the average (the running total, this delivery included,
    divided by 100) is logged, and the running total is then reset to 0,
    so that it is 0 when invocation n + 1 begins; otherwise the running
    total has grown by this delivery's reading. *)
Theorem C4_rolling_stats self0 deliveries basic_deliver body clock self1 t1 self2 t2 :
  invocations self0 = 0 ->
  on_messages json_loads decode_utf8 deliveries self0 = (Return tt, self1, t1) ->
  on_message basic_deliver body clock self1 = (Return tt, self2, t2) ->
  let n := Z.of_nat (length deliveries) + 1 in
  invocations self2 = n
  /\ (n mod 100 = 0 ->
      total_execution_time self2 = 0
      /\ exists before,
           t2 = before
                ++ [Log INFO (L_avg_handling_time
                                ((total_execution_time self1 + exec_time_millis clock)
                                 / 100));
                    Statsd_timing (statsd_prefix self1 +:+ "message.process.time")
                      (timing_millis clock)])
  /\ (n mod 100 <> 0 ->
      total_execution_time self2 = total_execution_time self1 + exec_time_millis clock).
Proof.
  intros Hzero Hruns Hrun n.
  apply on_messages_invocations in Hruns. rewrite Hzero, Z.add_0_l in Hruns.
  apply on_message_returns in Hrun as [-> [before ->]].
  unfold accounted, accounting_calls, counted. cbn [invocations set_invocations].
  rewrite Hruns. fold n. cbn [total_execution_time statsd_prefix].
  destruct (n mod 100 =? 0) eqn:Hn.
  - apply Z.eqb_eq in Hn. split; [done|]. split; [|done].
    intros _. split; [done|].
    exists (before ++ [Log DEBUG (L_handling_time (exec_time_millis clock))]).
    by rewrite <- app_assoc.
  - apply Z.eqb_neq in Hn. split; [done|]. split; [done|]. by intros _.
Qed.


(** *** What a callback calls and what it leaves alone *)

Lemma filter_none {A} (P : A -> bool) (l : list A) :
  (forall x, x ∈ l -> P x = false) -> List.filter P l = [].
Proof.
  induction l as [|a l IH]; intros H; [done|]. cbn.
  rewrite (H a) by constructor. apply IH. intros x Hx. apply H. by constructor.
Qed.



Lemma on_message_dispatcher_calls basic_deliver body clock self o self' t ev :
  on_message basic_deliver body clock self = (o, self', t) ->
  ev ∈ t -> is_dispatcher_call ev = true.
Proof.
  intros Hrun Hin. view_cases Hrun; elem_cases Hin; by subst ev.
Qed.

(** [on_message] assigns the two statistics and nothing else. *)
Lemma on_message_fields basic_deliver body clock self o self' t :
  on_message basic_deliver body clock self = (o, self', t) ->
  _closing self' = _closing self /\ _channel self' = _channel self
  /\ _connection self' = _connection self /\ exchange self' = exchange self
  /\ queue_name self' = queue_name self
  /\ error_queue_name self' = error_queue_name self.
Proof.
  intros Hrun. view_cases Hrun; unfold accounted, counted;
    try destruct (_ =? _); done.
Qed.

(** Unfolding the methods of the life cycle in a hypothesis, and taking
    the cases of the fields they test. *)
Ltac run_method H :=
  unfold dispatch, on_connection_open, add_on_connection_close_callback, open_channel,
    on_connection_closed, reconnect, connect, start_ioloop, on_channel_open,
    add_on_channel_close_callback, setup_queues_and_bindings, on_channel_closed,
    setup_queue, on_queue_declareok, on_bindok, setup_error_queue,
    on_error_queue_declareok, start_consuming, add_on_cancel_callback,
    on_consumer_cancelled, on_cancelok, close_channel, stop_consuming,
    channel_call, connection_call, suspend in H;
  unfold_M; cbn in H;
  repeat match type of H with
         | context [_connection ?s] =>
             is_var s; destruct (_connection s) eqn:?; cbn in H
         | context [_channel ?s] =>
             is_var s; destruct (_channel s) eqn:?; cbn in H
         | context [_closing ?s] =>
             is_var s; destruct (_closing s) eqn:?; cbn in H
         end.

(** [C5] On every connection-close notification, on a consumer that has
    its connection: the channel field is cleared; when the closing flag
    is unset, a call of [reconnect] is scheduled on the connection after
    5 seconds, and the event loop is not stopped; when the closing flag
    is set, the event loop of the connection is stopped and nothing is
    scheduled.  Once the closing flag is set it stays set through every
    callback, and no callback schedules a timer, opens a connection or
    starts an event loop: no reconnect is ever scheduled while closing is
    set. *)
Theorem C5_connection_closed self connection reply_code reply_text c :
  _connection self = Some c ->
  on_connection_closed connection reply_code reply_text self
  = (Return tt, set_channel None self,
     if _closing self
     then [OnConnection c ioloop_stop]
     else [Log WARNING (L_connection_closed_reopening reply_code reply_text);
           OnConnection c (add_timeout 5 self_reconnect)])
  /\ (forall ioloop cb (self1 : Consumer Json) o self2 t,
        _closing self1 = true ->
        dispatch json_loads decode_utf8 ioloop cb self1 = (o, self2, t) ->
        _closing self2 = true /\ List.filter is_restart_call t = []).
Proof.
  intros Hc. split.
  - unfold on_connection_closed, connection_call. unfold_M. cbn.
    destruct (_closing self); cbn; rewrite Hc; reflexivity.
  - intros ioloop cb self1 o self2 t Hclosing Hrun.
    destruct cb.
    11: { cbn [dispatch] in Hrun. split.
          - apply on_message_fields in Hrun. by destruct Hrun as [-> _].
          - apply filter_none. intros ev Hin.
            eapply on_message_dispatcher_calls in Hin; [|done].
            by destruct ev as [| | | | |? []|? []| |]. }
    all: run_method Hrun; try discriminate Hclosing;
      apply result_eq in Hrun as (<- & <- & <-); by cbn.
Qed.


(** [C7] On every channel-close notification, on a consumer that has its
    connection, the one call made is [close()] on the connection, and no
    field changes.  A channel is requested from the connection by the
    connection-open callback only: no other callback, the channel-close
    callback included, opens a channel again. *)
Theorem C7_channel_closed_closes_connection self channel reply_code reply_text c :
  _connection self = Some c ->
  on_channel_closed channel reply_code reply_text self
  = (Return tt, self,
     [Log WARNING (L_channel_closed channel reply_code reply_text);
      OnConnection c connection_close])
  /\ (forall cb (self1 : Consumer Json) ev,
        ev ∈ (step json_loads decode_utf8 cb self1).2 ->
        is_channel_request ev = true ->
        exists unused_connection, cb = call_on_connection_open unused_connection).
Proof.
  intros Hc. split.
  - unfold on_channel_closed, connection_call. unfold_M. cbn. by rewrite Hc.
  - intros cb self1 ev Hin Hev. unfold step in Hin.
    destruct (dispatch _ _ _ cb self1) as [[o self2] t] eqn:Hrun. cbn [snd] in Hin.
    destruct cb; [by eexists|..].
    10: { cbn [dispatch] in Hrun.
          eapply on_message_dispatcher_calls in Hin; [|done].
          by destruct ev as [| | | | |? []|? []| |]. }
    all: exfalso; run_method Hrun; apply result_eq in Hrun as (_ & _ & <-);
      elem_cases Hin; by subst ev.
Qed.

(** [C10] (as amended) While no channel is held ([_channel] is [None]):
    [stop_consuming] does nothing and [on_consumer_cancelled] only logs;
    neither calls the channel, neither raises.  [stop()] sets the closing
    flag first.  When there is no connection either, it starts no event
    loop, makes no call but its two log lines, and returns with the
    closing flag and [stopped] both [True].  When there is a connection,
    its one call besides logging is [ioloop.start()], made with the
    closing flag set and no channel held; [stopped] becomes [True] only
    when that call returns.  While the event loop has not returned,
    [stop()] has not returned and [stopped] is as the loop leaves it, and
    an exception that leaves the loop leaves [stop()]. *)
Theorem C10_stop_without_channel self (ioloop : Connection -> M Json unit) :
  _channel self = None ->
  stop_consuming self = (Return tt, self, [])
  /\ on_consumer_cancelled self = (Return tt, self, [Log INFO L_cancelled_remotely])
  /\ (_connection self = None ->
      exists self',
        stop ioloop self = (Return tt, self', [Log INFO L_stopping; Log INFO L_stopped])
        /\ _closing self' = true /\ stopped self' = true
        /\ self' = set_stopped true (set_closing true self))
  /\ (forall c,
        _connection self = Some c ->
        exists entering,
          entering = set_closing true self
          /\ _closing entering = true /\ _channel entering = None
          /\ stopped entering = stopped self
          /\ forall o self1 t1,
               ioloop c entering = (o, self1, t1) ->
               let started := [Log INFO L_stopping; OnConnection c ioloop_start] ++ t1 in
               match o with
               | Return _ =>
                   exists self',
                     stop ioloop self = (Return tt, self', started ++ [Log INFO L_stopped])
                     /\ stopped self' = true /\ _closing self' = _closing self1
                     /\ self' = set_stopped true self1
               | Raise e => stop ioloop self = (Raise e, self1, started)
               | Blocked => stop ioloop self = (Blocked, self1, started)
               end).
Proof.
  intros Hch. split; [|split; [|split]].
  - unfold stop_consuming. unfold_M. by rewrite Hch.
  - unfold on_consumer_cancelled. unfold_M. cbn. by rewrite Hch.
  - intros Hc. exists (set_stopped true (set_closing true self)).
    split; [|done].
    unfold stop, stop_consuming. unfold_M. cbn. rewrite Hch. cbn. by rewrite Hc.
  - intros c Hc. eexists. split; [reflexivity|]. split; [done|]. split; [done|].
    split; [done|]. intros o self1 t1 Hloop started. subst started.
    unfold stop, stop_consuming. unfold_M. cbn. rewrite Hch. cbn. rewrite Hc. cbn.
    rewrite Hloop. destruct o as [[]|e|]; [|done..].
    exists (set_stopped true self1). split; [|done]. reflexivity.
Qed.


(** *** Runs: the topology is set up before consuming *)

Local Abbreviation step := (step json_loads decode_utf8).
Local Abbreviation run_callbacks := (run_callbacks json_loads decode_utf8).

(** No callback changes the identity of the consumer. *)
Lemma step_identity cb self :
  exchange (step cb self).1 = exchange self
  /\ queue_name (step cb self).1 = queue_name self
  /\ error_queue_name (step cb self).1 = error_queue_name self.
Proof.
  unfold step. destruct (dispatch _ _ _ cb self) as [[o self2] t] eqn:Hrun.
  cbn [fst]. destruct cb.
  11: { cbn [dispatch] in Hrun. apply on_message_fields in Hrun. tauto. }
  all: run_method Hrun; by apply result_eq in Hrun as (_ & <- & _).
Qed.

(** The declare, bind and consume requests a callback makes. *)
Lemma step_setup_calls cb self ch call :
  OnChannel ch call ∈ (step cb self).2 -> is_setup_call call = true ->
  exists k, (k <= 4)%nat /\ call = setup_request self k
    /\ method_of cb = setup_method k
    /\ (k = 0%nat -> cb = call_on_channel_open ch)
    /\ (k <> 0%nat -> _channel self = Some ch).
Proof.
  intros Hin Hcall. unfold step in Hin.
  destruct (dispatch _ _ _ cb self) as [[o self2] t] eqn:Hrun. cbn [snd] in Hin.
  destruct cb.
  11: { cbn [dispatch] in Hrun.
        eapply on_message_dispatcher_calls in Hin; [|done].
        by destruct call. }
  all: run_method Hrun; apply result_eq in Hrun as (_ & _ & <-);
    elem_cases Hin; injection Hin as -> ->; try discriminate Hcall.
  - exists 0%nat. split; [lia|]. by repeat split.
  - exists 1%nat. split; [lia|]. by repeat split.
  - exists 2%nat. split; [lia|]. by repeat split.
  - exists 3%nat. split; [lia|]. by repeat split.
  - exists 4%nat. split; [lia|]. by repeat split.
Qed.

(** No callback cancels: the requests with a reply callback that a
    callback makes are declare and bind requests. *)
Lemma step_reply_calls cb self ch call :
  OnChannel ch call ∈ (step cb self).2 -> is_Some (reply_callback call) ->
  is_setup_call call = true.
Proof.
  intros Hin [m Hm]. unfold step in Hin.
  destruct (dispatch _ _ _ cb self) as [[o self2] t] eqn:Hrun. cbn [snd] in Hin.
  destruct cb.
  11: { cbn [dispatch] in Hrun.
        eapply on_message_dispatcher_calls in Hin; [|done].
        by destruct call. }
  all: run_method Hrun; apply result_eq in Hrun as (_ & _ & <-);
    elem_cases Hin; injection Hin as -> ->; done.
Qed.

Lemma requested_sound (t : list (Event Json)) ch m :
  requested t ch m = true ->
  exists call, OnChannel ch call ∈ t /\ reply_callback call = Some m.
Proof.
  unfold requested. intros (ev & Hin & Hev)%existsb_exists.
  destruct ev as [| | | | |ch' call| | |]; try done. cbn in Hev.
  destruct (decide (ch' = ch)) as [->|]; [|done].
  exists call. split; [by apply list_elem_of_In|by apply bool_decide_eq_true in Hev].
Qed.

Lemma elem_of_calls_of (h : History Json) (ev : Event Json) :
  ev ∈ calls_of h <-> exists i cb t, h !! i = Some (cb, t) /\ ev ∈ t.
Proof.
  unfold calls_of. induction h as [|[cb t] h IH]; cbn.
  - split; [by intros ?%elem_of_nil|by intros (i & ? & ? & ? & _)].
  - rewrite elem_of_app, IH. split.
    + intros [Hin|(i & cb' & t' & Hi & Hin)]; [by exists 0%nat, cb, t|by exists (S i), cb', t'].
    + intros ([|i] & cb' & t' & Hi & Hin); cbn in Hi.
      * injection Hi as -> ->. by left.
      * right. by exists i, cb', t'.
Qed.

(** The request each reply callback answers. *)
Lemma reply_callback_setup_request self k k' :
  (k <= 4)%nat -> (k' <= 3)%nat ->
  reply_callback (setup_request self k) = Some (setup_method (S k')) -> k = k'.
Proof.
  intros Hk Hk'.
  destruct k as [|[|[|[|[|]]]]]; try lia;
    destruct k' as [|[|[|[|]]]]; try lia; done.
Qed.

Lemma issued_in_app_l (h : History Json) x i cb ch call :
  issued_in h i cb ch call -> issued_in (h ++ [x]) i cb ch call.
Proof.
  intros (t & Hi & Hin). exists t. split; [|done].
  rewrite lookup_app_l; [done|]. by eapply lookup_lt_Some.
Qed.

Lemma issued_in_snoc (h : History Json) cb0 t0 i cb ch call :
  issued_in (h ++ [(cb0, t0)]) i cb ch call ->
  issued_in h i cb ch call
  \/ (i = length h /\ cb = cb0 /\ OnChannel ch call ∈ t0).
Proof.
  intros (t & Hi & Hin).
  destruct (decide (i < length h)%nat) as [Hlt|Hge].
  - left. exists t. by rewrite lookup_app_l in Hi.
  - right. rewrite lookup_app_r in Hi by lia.
    destruct (i - length h)%nat as [|n] eqn:Hn; [|by destruct n].
    injection Hi as -> ->. split; [lia|done].
Qed.

(** One more callback keeps the invariant. *)
Lemma setup_chain_step self0 self h cb :
  setup_chain self0 self h ->
  enabled self (calls_of h) cb = true ->
  setup_chain self0 (step cb self).1 (h ++ [(cb, (step cb self).2)]).
Proof.
  intros ((Hex & Hq & Heq) & Hreply & Hchain) Hen.
  destruct (step_identity cb self) as (Hex' & Hq' & Heq').
  split; [by rewrite Hex', Hq', Heq'|]. split.
  - intros i cb' ch call [Hold|(-> & -> & Hin)]%issued_in_snoc Hsome.
    + by eapply Hreply.
    + by eapply step_reply_calls.
  - intros i cb' ch call [Hold|(-> & -> & Hin)]%issued_in_snoc Hcall.
    + destruct (Hchain _ _ _ _ Hold Hcall) as (k & Hk & -> & Hm & H0 & HS).
      exists k. repeat split; [done..|].
      intros k' ->. destruct (HS k' eq_refl) as (j & cbj & Hj & Hissued).
      exists j, cbj. split; [done|]. by apply issued_in_app_l.
    + destruct (step_setup_calls _ _ _ _ Hin Hcall) as (k & Hk & -> & Hm & H0 & Hch).
      exists k. split; [done|]. split.
      { unfold setup_request. by rewrite Hex, Hq, Heq. }
      split; [done|]. split; [done|].
      intros k' ->. specialize (Hch ltac:(done)).
      assert (requested (calls_of h) ch (setup_method (S k')) = true) as Hreq.
      { rewrite <- Hm.
        destruct k' as [|[|[|[|]]]]; [..|lia];
          destruct cb; try discriminate Hm; cbn in Hen |- *; by rewrite Hch in Hen. }
      apply requested_sound in Hreq as (call0 & Hin0 & Hcb0).
      apply elem_of_calls_of in Hin0 as (j & cbj & tj & Hj & Hin0).
      assert (issued_in h j cbj ch call0) as Hissued by by exists tj.
      assert (is_setup_call call0 = true) as Hsetup0
        by (eapply Hreply; [done|by rewrite Hcb0]).
      destruct (Hchain _ _ _ _ Hissued Hsetup0) as (k0 & Hk0 & -> & _).
      assert (k0 = k') as -> by (eapply reply_callback_setup_request; [done|lia|done]).
      exists j, cbj. split; [by eapply lookup_lt_Some|].
      by apply issued_in_app_l.
Qed.

Lemma setup_chain_run cbs self0 self h self' h' :
  setup_chain self0 self h ->
  run_callbacks cbs self h = Some (self', h') ->
  setup_chain self0 self' h'.
Proof.
  revert self h. induction cbs as [|cb cbs IH]; intros self h Hinv Hrun.
  - by injection Hrun as <- <-.
  - cbn [run_callbacks] in Hrun.
    destruct (enabled self (calls_of h) cb) eqn:Hen; [|done].
    pose proof (setup_chain_step _ _ _ _ Hinv Hen) as Hinv'.
    unfold step in Hrun, Hinv'.
    destruct (dispatch _ _ _ cb self) as [[o self1] t]. by eapply IH.
Qed.


Lemma setup_request_inj self k k' :
  (k <= 4)%nat -> (k' <= 4)%nat -> setup_request self k = setup_request self k' -> k = k'.
Proof.
  intros Hk Hk'.
  destruct k as [|[|[|[|[|]]]]]; try lia;
    destruct k' as [|[|[|[|[|]]]]]; try lia; done.
Qed.

(** Going one request back along the chain. *)
Lemma setup_chain_back self0 self h i cb ch k :
  setup_chain self0 self h -> (k <= 4)%nat ->
  issued_in h i cb ch (setup_request self0 k) ->
  method_of cb = setup_method k
  /\ (k = 0%nat -> cb = call_on_channel_open ch)
  /\ (forall k', k = S k' ->
        exists j cbj, (j < i)%nat /\ issued_in h j cbj ch (setup_request self0 k')).
Proof.
  intros (_ & _ & Hchain) Hk Hissued.
  assert (is_setup_call (setup_request self0 k) = true) as Hcall
    by by destruct k as [|[|[|[|]]]].
  destruct (Hchain _ _ _ _ Hissued Hcall) as (k0 & Hk0 & Heq & Hrest).
  by apply setup_request_inj in Heq as <-.
Qed.

(** [C6] In every run of the callbacks of a consumer, a [basic_consume]
    request on a channel is made by the callback that acknowledges the
    declaration of the error queue, and before it, on that channel and in
    this order: the channel-open callback made the passive exchange
    check; the callback acknowledging that check declared the consumer's
    queue, durable and not exclusive; the callback acknowledging that
    declaration bound the queue to the exchange with the empty routing
    key; the callback acknowledging the bind declared the error queue,
    durable and not exclusive.  Each request of the setup is made by the
    acknowledgement callback of the request before it. *)
Theorem C6_consume_after_topology cbs self0 self h i cb ch m q :
  run_callbacks cbs self0 [] = Some (self, h) ->
  issued_in h i cb ch (basic_consume m q) ->
  exists i0 i1 i2 i3 consumer_tag,
    (i0 < i1 < i2)%nat /\ (i2 < i3 < i)%nat
    /\ issued_in h i0 (call_on_channel_open ch) ch
         (exchange_declare self_setup_queue (exchange self0) true)
    /\ issued_in h i1 call_setup_queue ch
         (queue_declare self_on_queue_declareok (queue_name self0) true false)
    /\ issued_in h i2 call_on_queue_declareok ch
         (queue_bind self_on_bindok (queue_name self0) (exchange self0) "")
    /\ issued_in h i3 call_on_bindok ch
         (queue_declare self_on_error_queue_declareok (error_queue_name self0) true false)
    /\ cb = call_on_error_queue_declareok consumer_tag
    /\ m = self_on_message /\ q = queue_name self0.
Proof.
  intros Hrun Hconsume.
  assert (setup_chain self0 self h) as Hinv.
  { eapply setup_chain_run; [|done]. split; [done|].
    split; intros ? ? ? ? (t & Hi & _); done. }
  assert (basic_consume m q = setup_request self0 4) as Hfour.
  { destruct Hinv as (_ & _ & Hchain).
    destruct (Hchain _ _ _ _ Hconsume eq_refl) as (k & Hk & Heq & _).
    by destruct k as [|[|[|[|[|]]]]]; try lia. }
  injection Hfour as -> ->. change (issued_in h i cb ch (setup_request self0 4)) in Hconsume.
  destruct (setup_chain_back _ _ _ _ _ _ 4 Hinv ltac:(lia) Hconsume) as (Hm4 & _ & Hback).
  destruct (Hback 3%nat eq_refl) as (i3 & cb3 & Hlt3 & Hissued3). clear Hback.
  destruct (setup_chain_back _ _ _ _ _ _ 3 Hinv ltac:(lia) Hissued3) as (Hm3 & _ & Hback).
  destruct (Hback 2%nat eq_refl) as (i2 & cb2 & Hlt2 & Hissued2). clear Hback.
  destruct (setup_chain_back _ _ _ _ _ _ 2 Hinv ltac:(lia) Hissued2) as (Hm2 & _ & Hback).
  destruct (Hback 1%nat eq_refl) as (i1 & cb1 & Hlt1 & Hissued1). clear Hback.
  destruct (setup_chain_back _ _ _ _ _ _ 1 Hinv ltac:(lia) Hissued1) as (Hm1 & _ & Hback).
  destruct (Hback 0%nat eq_refl) as (i0 & cb0 & Hlt0 & Hissued0). clear Hback.
  destruct (setup_chain_back _ _ _ _ _ _ 0 Hinv ltac:(lia) Hissued0) as (_ & Hcb0 & _).
  rewrite (Hcb0 eq_refl) in Hissued0.
  destruct cb; try discriminate Hm4.
  destruct cb3; try discriminate Hm3.
  destruct cb2; try discriminate Hm2.
  destruct cb1; try discriminate Hm1.
  exists i0, i1, i2, i3, consumer_tag. by repeat split.
Qed.

(** * More of the class *)

(** ** Deliveries that do not reach the [try] *)

(** [X1] When the body is not UTF-8, the consumer has no statsd client, or
    it holds no channel, [on_message] raises an [Exception] before the
    acknowledgement: it calls nothing on the channel, never calls
    [json.loads] or the handler, and the one field it changes is the
    invocation count, which it increments. *)
Theorem X1_delivery_dropped_before_ack basic_deliver body clock self :
  decode_utf8 body = None \/ statsd self = None \/ _channel self = None ->
  exists e t,
    on_message basic_deliver body clock self = (Raise e, counted self, t)
    /\ isinstance_Exception e = true
    /\ List.filter is_on_channel t = []
    /\ List.filter is_decode_or_handler t = [].
Proof.
  intros Hnot.
  destruct (decode_utf8 body) as [text|] eqn:Hdec.
  2: { do 2 eexists. rewrite on_message_undecodable by done. done. }
  destruct (statsd self) as [sd|] eqn:Hsd.
  2: { do 2 eexists. erewrite on_message_no_statsd by done. done. }
  destruct (_channel self) as [ch|] eqn:Hch.
  - by destruct Hnot as [?|[?|?]].
  - do 2 eexists. erewrite on_message_no_channel by done. done.
Qed.

(** ** What [on_message] leaves alone *)

(** [X2] Whatever the delivery and however it ends, [on_message] assigns
    no field but the invocation count and the running total, increments
    the count by exactly one, calls nothing on the connection, and calls
    nothing on a channel but [basic_ack] and [basic_publish] on the
    channel the consumer holds. *)
Theorem X2_on_message_frame basic_deliver body clock self o self' t :
  on_message basic_deliver body clock self = (o, self', t) ->
  self' = set_total_execution_time (total_execution_time self')
            (set_invocations (invocations self') self)
  /\ invocations self' = invocations self + 1
  /\ (forall ev, ev ∈ t -> is_dispatcher_call ev = true)
  /\ (forall ch call, OnChannel ch call ∈ t -> _channel self = Some ch).
Proof.
  intros Hrun. split; [|split; [|split]].
  - view_cases Hrun; unfold accounted, counted; destruct self;
      try destruct (_ =? _); reflexivity.
  - view_cases Hrun; unfold accounted, counted; try destruct (_ =? _); reflexivity.
  - intros ev Hin. by eapply on_message_dispatcher_calls.
  - intros ch' call Hin. view_cases Hrun; elem_cases Hin; by injection Hin as ->.
Qed.

(** ** The metrics of a delivery *)

Lemma receive_metrics_of_responses self ch (messages : list Message) :
  List.filter (is_incr (statsd_prefix self +:+ "message.receive"))
    (flat_map (response_calls self ch) messages) = [].
Proof.
  induction messages as [|m ms IH]; [done|].
  cbn [flat_map]. rewrite List.filter_app, IH. unfold response_calls.
  cbn [List.filter app is_incr]. rewrite bool_decide_prefix. done.
Qed.

Lemma timings_of_responses self ch (messages : list Message) :
  List.filter is_statsd_timing (flat_map (response_calls self ch) messages) = [].
Proof. induction messages as [|m ms IH]; [done|]. cbn. by rewrite IH. Qed.

Lemma timings_of_accounting self clock :
  List.filter is_statsd_timing (accounting_calls self clock)
  = [Statsd_timing (statsd_prefix self +:+ "message.process.time") (timing_millis clock)].
Proof. unfold accounting_calls. by destruct (_ =? _). Qed.

Lemma last_of_accounting self clock (before : list (Event Json)) :
  last (before ++ accounting_calls self clock)
  = Some (Statsd_timing (statsd_prefix self +:+ "message.process.time")
            (timing_millis clock)).
Proof.
  rewrite last_app. unfold accounting_calls. by destruct (_ =? _).
Qed.

(** [X3] Every delivery [on_message] returns from emits the
    [message.receive] metric once and the [message.process.time] timing
    once, as its last call, and emits [message.error] at most once.  When
    [json.loads] fails or the handler raises, no [message.publish] metric
    is emitted for the delivery. *)
Theorem X3_metrics_of_a_delivery basic_deliver body clock self self' t :
  on_message basic_deliver body clock self = (Return tt, self', t) ->
  List.filter (is_incr (statsd_prefix self +:+ "message.receive")) t
  = [Statsd_incr (statsd_prefix self +:+ "message.receive")]
  /\ List.filter is_statsd_timing t
     = [Statsd_timing (statsd_prefix self +:+ "message.process.time")
          (timing_millis clock)]
  /\ last t = Some (Statsd_timing (statsd_prefix self +:+ "message.process.time")
                      (timing_millis clock))
  /\ (length (List.filter (is_incr (statsd_prefix self +:+ "message.error")) t) <= 1)%nat
  /\ (json_loads body = None
      \/ (exists json_body e,
            json_loads body = Some json_body
            /\ callback_func self json_body = Raise e) ->
      List.filter (is_incr (statsd_prefix self +:+ "message.publish")) t = []).
Proof.
  intros Hrun. view_cases Hrun; try discriminate.
  all: split; [rewrite !List.filter_app, ?receive_metrics_of_responses; by count_calls|].
  all: split;
    [rewrite !List.filter_app, ?timings_of_responses, timings_of_accounting; done|].
  all: split; [rewrite !app_assoc; exact (last_of_accounting (counted self) clock _)|].
  all: split;
    [count_calls; repeat case_bool_decide; try done; cbn; lia|].
  - intros [Hnone|(j & e & Hj & Hraise)]; congruence.
  - intros _. by count_calls.
  - intros _. by count_calls.
Qed.

(** ** The running total and the logged average *)

Local Abbreviation on_messages := (on_messages json_loads decode_utf8).

Lemma on_messages_snoc deliveries basic_deliver body clock self self' t :
  on_messages (deliveries ++ [(basic_deliver, body, clock)]) self = (Return tt, self', t) ->
  exists self1 t1 t2,
    on_messages deliveries self = (Return tt, self1, t1)
    /\ on_message basic_deliver body clock self1 = (Return tt, self', t2)
    /\ t = t1 ++ t2.
Proof.
  revert self t. induction deliveries as [|[[bd b] c] ds IH]; intros self t Hrun.
  - cbn [app on_messages for_each] in Hrun.
    apply bind_Return_inv in Hrun as ([] & s1 & ta & tb & Ha & Hb & ->).
    apply result_eq in Hb as (_ & <- & <-).
    exists self, [], ta. by rewrite app_nil_r.
  - cbn [app on_messages for_each] in Hrun.
    apply bind_Return_inv in Hrun as ([] & s1 & ta & tb & Ha & Hb & ->).
    apply IH in Hb as (self1 & t1 & t2 & H1 & H2 & ->).
    exists self1, (ta ++ t1), t2. split; [|by rewrite app_assoc].
    cbn [on_messages for_each]. rewrite (bind_Return _ _ _ _ _ _ Ha).
    unfold on_messages in H1. by rewrite H1.
Qed.

Lemma Z_sum_app (l1 l2 : list Z) : Z_sum (l1 ++ l2) = Z_sum l1 + Z_sum l2.
Proof.
  unfold Z_sum. induction l1 as [|x l1 IH]; cbn [foldr app]; [lia|].
  rewrite IH. lia.
Qed.

Lemma readings_app (l1 l2 : list (Basic_Deliver * string * Clock)) :
  readings (l1 ++ l2) = readings l1 ++ readings l2.
Proof. apply map_app. Qed.

Lemma hundred_reached (n : nat) :
  (0 + Z.of_nat n + 1) mod 100 = 0 -> (100 * ((n + 1) / 100) = n + 1)%nat.
Proof.
  intros H. apply Nat2Z.inj.
  rewrite Nat2Z.inj_mul, Nat2Z.inj_div, Nat2Z.inj_add.
  Z.div_mod_to_equations. lia.
Qed.

Lemma hundred_not_reached (n : nat) :
  (0 + Z.of_nat n + 1) mod 100 <> 0 ->
  ((n + 1) / 100 = n / 100)%nat /\ (100 * (n / 100) <= n)%nat.
Proof.
  intros H. split.
  - apply Nat2Z.inj. rewrite !Nat2Z.inj_div, Nat2Z.inj_add.
    Z.div_mod_to_equations. lia.
  - apply Nat2Z.inj_le. rewrite Nat2Z.inj_mul, Nat2Z.inj_div.
    Z.div_mod_to_equations. lia.
Qed.

(** The running total after deliveries all returned from. *)
Lemma rolling_total deliveries self0 self' t :
  invocations self0 = 0 -> total_execution_time self0 = 0 ->
  on_messages deliveries self0 = (Return tt, self', t) ->
  total_execution_time self' = Z_sum (readings (since_last_hundred deliveries)).
Proof.
  intros Hinv Htotal. revert self' t.
  induction deliveries as [|[[bd b] c] ds IH] using rev_ind; intros self' t Hrun.
  - by apply result_eq in Hrun as (_ & <- & _).
  - apply on_messages_snoc in Hrun as (self1 & t1 & t2 & H1 & H2 & _).
    pose proof (on_messages_invocations _ _ _ _ H1) as Hn. rewrite Hinv in Hn.
    apply IH in H1. apply on_message_returns in H2 as [-> _].
    unfold accounted, counted, since_last_hundred in *.
    cbn [invocations set_invocations total_execution_time set_total_execution_time].
    rewrite Hn, H1, length_app. cbn [length].
    set (n := length ds) in *.
    destruct (_ =? _) eqn:Hmod; cbn [total_execution_time set_total_execution_time].
    + apply Z.eqb_eq in Hmod.
      rewrite drop_ge; [done|]. rewrite length_app. cbn [length]. fold n.
      by rewrite hundred_reached.
    + apply Z.eqb_neq in Hmod. apply hundred_not_reached in Hmod as [-> Hle].
      rewrite drop_app_le by done.
      rewrite readings_app, Z_sum_app. cbn. lia.
Qed.

(** [X4] Starting from zero statistics, after any number of deliveries
    that [on_message] returned from, the running total is the sum of the
    readings of the deliveries after the last one whose number is a
    multiple of 100: each block of a hundred starts from zero. *)
Theorem X4_running_total deliveries self0 self' t :
  invocations self0 = 0 -> total_execution_time self0 = 0 ->
  on_messages deliveries self0 = (Return tt, self', t) ->
  total_execution_time self' = Z_sum (readings (since_last_hundred deliveries))
  /\ (length (since_last_hundred deliveries) < 100)%nat.
Proof.
  intros Hinv Htotal Hrun. split; [by eapply rolling_total|].
  unfold since_last_hundred. rewrite length_drop.
  pose proof (Nat.div_mod_eq (length deliveries) 100).
  pose proof (Nat.mod_upper_bound (length deliveries) 100). lia.
Qed.

Lemma on_message_configuration basic_deliver body clock self o self' t :
  on_message basic_deliver body clock self = (o, self', t) ->
  same_configuration self self'.
Proof.
  intros Hrun. view_cases Hrun; unfold accounted, counted;
    try destruct (_ =? _); by repeat split.
Qed.

Lemma same_configuration_trans self1 self2 self3 :
  same_configuration self1 self2 -> same_configuration self2 self3 ->
  same_configuration self1 self3.
Proof. unfold same_configuration. intros H1 H2. repeat split; by etrans; [apply H2|apply H1]. Qed.

Lemma on_messages_configuration deliveries self self' t :
  on_messages deliveries self = (Return tt, self', t) ->
  same_configuration self self'.
Proof.
  revert self t. induction deliveries as [|[[bd b] c] ds IH]; intros self t Hrun.
  - apply result_eq in Hrun as (_ & <- & _). by repeat split.
  - cbn [on_messages for_each] in Hrun.
    apply bind_Return_inv in Hrun as ([] & s1 & ta & tb & Ha & Hb & _).
    apply on_message_configuration in Ha. apply IH in Hb.
    by eapply same_configuration_trans.
Qed.

Lemma hundredth (n : nat) :
  ((n + 1) mod 100 = 0)%nat ->
  (0 + Z.of_nat n + 1) mod 100 = 0
  /\ (100 * (n / 100) = n + 1 - 100)%nat /\ (n + 1 - 100 <= n)%nat.
Proof.
  intros H.
  pose proof (Nat.div_mod_eq (n + 1) 100) as Hdiv. rewrite H in Hdiv.
  pose proof (Nat.div_mod_eq n 100) as Hdivn.
  pose proof (Nat.mod_upper_bound n 100 ltac:(done)) as Hbound.
  assert ((n + 1) / 100 = S (n / 100))%nat as Hq by lia.
  split; [|lia].
  replace (0 + Z.of_nat n + 1) with (Z.of_nat (n + 1)) by lia.
  change 100 with (Z.of_nat 100). by rewrite <- Nat2Z.inj_mod, H.
Qed.

(** [X5] Starting from zero statistics, when the number of deliveries
    returned from is a positive multiple of 100, the last delivery logs,
    just before its timing metric, the floor of the sum of the readings
    of the last hundred deliveries divided by 100. *)
Theorem X5_logged_average deliveries self0 self' t :
  invocations self0 = 0 -> total_execution_time self0 = 0 ->
  on_messages deliveries self0 = (Return tt, self', t) ->
  deliveries <> [] -> (length deliveries mod 100 = 0)%nat ->
  exists before timing,
    t = before
        ++ [Log INFO (L_avg_handling_time
                        (Z_sum (readings (drop (length deliveries - 100) deliveries))
                         / 100));
            Statsd_timing (statsd_prefix self0 +:+ "message.process.time") timing].
Proof.
  intros Hinv Htotal Hrun Hne Hmod.
  destruct deliveries as [|[[bd b] c] ds0 _] using rev_ind; [done|]. clear Hne.
  apply on_messages_snoc in Hrun as (self1 & t1 & t2 & H1 & H2 & ->).
  pose proof (on_messages_invocations _ _ _ _ H1) as Hn. rewrite Hinv in Hn.
  pose proof (rolling_total _ _ _ _ Hinv Htotal H1) as Htot.
  pose proof (on_messages_configuration _ _ _ _ H1) as Hconf.
  assert (statsd_prefix self1 = statsd_prefix self0) as Hprefix by apply Hconf.
  rewrite length_app in Hmod |- *. cbn [length] in Hmod |- *.
  apply hundredth in Hmod as (HmodZ & Hdrop & Hle).
  apply on_message_returns in H2 as [_ [before ->]].
  unfold accounting_calls, counted. cbn [invocations set_invocations].
  rewrite Hn, HmodZ.
  cbn [Z.eqb total_execution_time statsd_prefix set_invocations].
  exists (t1 ++ before ++ [Log DEBUG (L_handling_time (exec_time_millis c))]),
    (timing_millis c).
  rewrite drop_app_le by done. rewrite readings_app, Z_sum_app.
  rewrite Htot.
  unfold since_last_hundred. rewrite Hdrop, Hprefix. cbn.
  rewrite Z.add_0_r. by rewrite <- !app_assoc.
Qed.

(** ** What runs of callbacks keep *)

(** What one callback leaves alone. *)
Lemma step_frame cb self :
  same_configuration self (step cb self).1
  /\ _closing (step cb self).1 = _closing self
  /\ stopped (step cb self).1 = stopped self
  /\ invocations (step cb self).1
     = invocations self + (if is_delivery cb then 1 else 0).
Proof.
  unfold step. destruct (dispatch _ _ _ cb self) as [[o self2] t] eqn:Hrun.
  cbn [fst]. destruct cb.
  11: { cbn [dispatch is_delivery] in Hrun |- *.
        view_cases Hrun; unfold accounted, counted;
          try destruct (_ =? _); by repeat split. }
  all: run_method Hrun; apply result_eq in Hrun as (_ & <- & _);
    cbn [is_delivery]; repeat split; cbn; first [done|lia].
Qed.

(** [X6] No callback assigns the configuration (the broker address and
    credentials, bot id, exchange, handler, the two queue names, consumer
    id, error queue handle, statsd client and prefix), the closing flag or
    the stopped flag: over any run of callbacks they are what they were
    at the start.  The closing flag is set by [stop()] alone. *)
Theorem X6_run_keeps_configuration_and_flags cbs self h self' h' :
  run_callbacks cbs self h = Some (self', h') ->
  same_configuration self self'
  /\ _closing self' = _closing self
  /\ stopped self' = stopped self.
Proof.
  revert self h. induction cbs as [|cb cbs IH]; intros self h Hrun.
  - injection Hrun as <- _. by repeat split.
  - cbn [run_callbacks] in Hrun.
    destruct (enabled self (calls_of h) cb); [|done].
    destruct (step_frame cb self) as (Hconf & Hclosing & Hstopped & _).
    unfold step in Hrun, Hconf, Hclosing, Hstopped.
    destruct (dispatch _ _ _ cb self) as [[o self1] t].
    apply IH in Hrun as (Hconf' & -> & ->).
    split; [by eapply same_configuration_trans|done].
Qed.

(** [X7] Over any run of callbacks the invocation count grows by the
    number of deliveries in the run, however each delivery ended: a
    delivery that raises is counted too, and no other callback touches
    the count. *)
Theorem X7_run_counts_deliveries cbs self h self' h' :
  run_callbacks cbs self h = Some (self', h') ->
  invocations self'
  = invocations self + Z.of_nat (length (List.filter is_delivery cbs)).
Proof.
  revert self h. induction cbs as [|cb cbs IH]; intros self h Hrun.
  - injection Hrun as <- _. cbn. lia.
  - cbn [run_callbacks] in Hrun.
    destruct (enabled self (calls_of h) cb); [|done].
    destruct (step_frame cb self) as (_ & _ & _ & Hinv).
    unfold step in Hrun, Hinv.
    destruct (dispatch _ _ _ cb self) as [[o self1] t].
    apply IH in Hrun as ->. cbn [fst] in Hinv. rewrite Hinv.
    cbn [List.filter]. destruct (is_delivery cb); cbn [length]; lia.
Qed.

(** ** The queue names *)

Lemma string_length_app (a b : string) :
  String.length (a +:+ b) = (String.length a + String.length b)%nat.
Proof.
  induction a as [|c a IH]; [done|].
  change (S (String.length (a +:+ b)) = S (String.length a + String.length b)).
  by rewrite IH.
Qed.

Lemma append_inj_r (a b s : string) : a +:+ s = b +:+ s -> a = b.
Proof.
  revert b. induction a as [|c a IH]; intros [|c' b] H.
  - done.
  - apply (f_equal String.length) in H.
    change (String.length s = S (String.length (b +:+ s))) in H.
    rewrite string_length_app in H. lia.
  - apply (f_equal String.length) in H.
    change (S (String.length (a +:+ s)) = String.length s) in H.
    rewrite string_length_app in H. lia.
  - change (String c (a +:+ s) = String c' (b +:+ s)) in H.
    injection H as -> H. by rewrite (IH b H).
Qed.

(** [X8] The queue names [__init__] builds tell the consumers of one
    exchange apart: two consumers on the same exchange have the same
    queue exactly when they have the same bot id, and likewise the same
    error queue.  A consumer's error queue is never its own queue, and
    both names stay as built over any run of callbacks. *)
Theorem X8_queue_names bot_id1 bot_id2 exchange0 handler1 handler2
    user1 user2 pw1 pw2 host1 host2 port1 port2 id1 id2 q1 q2 sd1 sd2 :
  let self1 := __init__ (Json:=Json) bot_id1 exchange0 handler1 user1 pw1 host1 port1 id1 q1 sd1 in
  let self2 := __init__ (Json:=Json) bot_id2 exchange0 handler2 user2 pw2 host2 port2 id2 q2 sd2 in
  (queue_name self1 = queue_name self2 <-> bot_id1 = bot_id2)
  /\ (error_queue_name self1 = error_queue_name self2 <-> bot_id1 = bot_id2)
  /\ (forall cbs self h,
        run_callbacks cbs self1 [] = Some (self, h) ->
        queue_name self = exchange0 +:+ "-" +:+ bot_id1
        /\ error_queue_name self = "error-" +:+ bot_id1 +:+ "-" +:+ exchange0
        /\ queue_name self <> error_queue_name self).
Proof.
  intros self1 self2. split; [|split].
  - cbn. split; [|by intros ->].
    intros H. by apply append_inj_l, (append_inj_l "-") in H.
  - cbn. split; [|by intros ->].
    intros H. apply (append_inj_l "error-") in H. by apply append_inj_r in H.
  - intros cbs self h Hrun.
    apply setup_chain_run with (self0 := self1) in Hrun as ((_ & -> & ->) & _).
    2: { split; [done|]. split; intros ? ? ? ? (t & Hi & _); done. }
    cbn. split; [done|]. split; [done|].
    intros H. apply (f_equal String.length) in H. cbn in H.
    rewrite !string_length_app in H. cbn in H. lia.
Qed.

(** ** The first call on a channel *)

Lemma calls_of_snoc (h : History Json) cb (t : list (Event Json)) :
  calls_of (h ++ [(cb, t)]) = calls_of h ++ t.
Proof. unfold calls_of. rewrite map_app, concat_app. cbn. by rewrite app_nil_r. Qed.

Lemma calls_on_nonempty ch (t : list (Event Json)) :
  calls_on ch t <> [] -> exists call, OnChannel ch call ∈ t.
Proof.
  induction t as [|ev t IH]; [done|]. intros Hcalls.
  destruct ev as [| | | | |ch' call| | |];
    try (destruct (IH Hcalls) as [call' Hin]; exists call'; by constructor).
  destruct (decide (ch' = ch)) as [->|Hne].
  - exists call. constructor.
  - unfold calls_on in Hcalls. cbn in Hcalls. rewrite decide_False in Hcalls by done.
    destruct (IH Hcalls) as [call' Hin]. exists call'. by constructor.
Qed.

Lemma on_message_channel basic_deliver body clock self o self' t ch call :
  on_message basic_deliver body clock self = (o, self', t) ->
  OnChannel ch call ∈ t -> _channel self = Some ch.
Proof.
  intros Hrun Hin. view_cases Hrun; elem_cases Hin; by injection Hin as ->.
Qed.

(** The calls a callback makes on a channel are on the channel the
    consumer holds, or on the channel that opens, and then they start
    with the prefetch count. *)
Lemma step_calls_on cb self ch :
  calls_on ch (step cb self).2 <> [] ->
  (exists rest, cb = call_on_channel_open ch
     /\ calls_on ch (step cb self).2 = basic_qos DEFAULT_PREFETCH_COUNT :: rest)
  \/ (_channel self = Some ch /\ forall ch', cb <> call_on_channel_open ch').
Proof.
  unfold step. destruct (dispatch _ _ _ cb self) as [[o self2] t] eqn:Hrun.
  cbn [snd]. intros Hcalls. destruct cb.
  11: { right. split; [|done]. cbn [dispatch] in Hrun.
        apply calls_on_nonempty in Hcalls as [call Hin].
        by eapply on_message_channel. }
  all: run_method Hrun; apply result_eq in Hrun as (_ & _ & <-);
    cbn in Hcalls; try done.
  all: repeat match type of Hcalls with
         | context [decide (?a = ?b)] => destruct (decide (a = b)) as [->|]; cbn in Hcalls
         end; try done.
  all: try (right; split; [done|done]).
  left. eexists. split; [done|]. cbn. by rewrite !decide_True by done.
Qed.

(** A channel the consumer comes to hold is one that just opened. *)
Lemma step_holds cb self ch :
  _channel (step cb self).1 = Some ch ->
  (cb = call_on_channel_open ch /\ calls_on ch (step cb self).2 <> [])
  \/ _channel self = Some ch.
Proof.
  unfold step. destruct (dispatch _ _ _ cb self) as [[o self2] t] eqn:Hrun.
  cbn [fst snd]. intros Hch. destruct cb.
  11: { right. cbn [dispatch] in Hrun. apply on_message_fields in Hrun.
        destruct Hrun as (_ & <- & _). done. }
  all: run_method Hrun; apply result_eq in Hrun as (_ & <- & <-);
    cbn in Hch; try done; try (right; congruence).
  all: injection Hch as ->; left; split; [done|]; cbn; by rewrite decide_True.
Qed.

(** The invariant: a channel the consumer holds has been called, and the
    first call on any channel sets the prefetch count. *)
Lemma prefetch_first_step self h cb :
  (forall ch, _channel self = Some ch -> calls_on ch (calls_of h) <> []) ->
  (forall ch call, head (calls_on ch (calls_of h)) = Some call ->
                   call = basic_qos DEFAULT_PREFETCH_COUNT) ->
  (forall ch, _channel (step cb self).1 = Some ch ->
              calls_on ch (calls_of (h ++ [(cb, (step cb self).2)])) <> [])
  /\ (forall ch call,
        head (calls_on ch (calls_of (h ++ [(cb, (step cb self).2)]))) = Some call ->
        call = basic_qos DEFAULT_PREFETCH_COUNT).
Proof.
  intros Hheld Hfirst. split.
  - intros ch Hch. rewrite calls_of_snoc. unfold calls_on. rewrite omap_app.
    intros [Hold Hnew]%app_eq_nil.
    apply step_holds in Hch as [[_ Hcalls]|Hch]; [done|]. by eapply Hheld.
  - intros ch call. rewrite calls_of_snoc. unfold calls_on. rewrite omap_app.
    destruct (omap (on_channel ch) (calls_of h)) as [|first rest] eqn:Hold.
    + cbn [app]. intros Hhead.
      destruct (step_calls_on cb self ch) as [(rest' & _ & Heq)|[Hch _]].
      * unfold calls_on. intros Hnil. by rewrite Hnil in Hhead.
      * unfold calls_on in Heq. rewrite Heq in Hhead. by injection Hhead as <-.
      * by apply Hheld in Hch.
    + cbn. intros [= <-]. apply (Hfirst ch). unfold calls_on. by rewrite Hold.
Qed.

Lemma prefetch_first_run cbs self h self' h' :
  (forall ch, _channel self = Some ch -> calls_on ch (calls_of h) <> []) ->
  (forall ch call, head (calls_on ch (calls_of h)) = Some call ->
                   call = basic_qos DEFAULT_PREFETCH_COUNT) ->
  run_callbacks cbs self h = Some (self', h') ->
  forall ch call, head (calls_on ch (calls_of h')) = Some call ->
                  call = basic_qos DEFAULT_PREFETCH_COUNT.
Proof.
  revert self h. induction cbs as [|cb cbs IH]; intros self h Hheld Hfirst Hrun.
  - by injection Hrun as <- <-.
  - cbn [run_callbacks] in Hrun.
    destruct (enabled self (calls_of h) cb); [|done].
    destruct (prefetch_first_step self h cb Hheld Hfirst) as [Hheld' Hfirst'].
    unfold step in Hrun, Hheld', Hfirst'.
    destruct (dispatch _ _ _ cb self) as [[o self1] t]. by eapply IH.
Qed.

(** [X9] In every run of a consumer that starts without a channel, the
    first call made on any channel is [basic_qos(prefetch_count=1)]:
    nothing is declared, consumed, acknowledged or published on a channel
    before its prefetch count is set to [DEFAULT_PREFETCH_COUNT]. *)
Theorem X9_prefetch_is_set_first cbs self0 self h ch call :
  _channel self0 = None ->
  run_callbacks cbs self0 [] = Some (self, h) ->
  head (calls_on ch (calls_of h)) = Some call ->
  call = basic_qos 1.
Proof.
  intros Hnone Hrun Hhead.
  eapply (prefetch_first_run cbs self0 []); [| |done..].
  - intros ch' Hch. congruence.
  - by intros ch' call' Hhd.
Qed.

(** ** [run] and what leaves the event loop *)

(** [X10] [run()] connects, stores the connection and starts its event
    loop.  When the loop returns, so does [run()].  When an [Exception]
    leaves the loop, [run()] logs it and puts the consumer id on the
    internal error queue, and returns; without an internal error queue
    (the constructor's default) that [put] raises [AttributeError] out of
    [run()].  [KeyboardInterrupt] and [SystemExit] are answered with
    [stop()]; [GeneratorExit] passes through. *)
Theorem X10_run_routes_exceptions (ioloop : Connection -> M Json unit) fresh self
    o self1 t :
  ioloop fresh (set_connection (Some fresh) self) = (o, self1, t) ->
  let started :=
    [Log INFO L_connecting;
     SelectConnection (rabbit_host self) (rabbit_port self) "/" (rabbit_user self)
       (rabbit_pw self) 1 5 self_on_connection_open false fresh;
     OnConnection fresh ioloop_start] ++ t in
  let reported e :=
    [Log WARNING (L_run_exception e); Log WARNING L_run_exception_consumer] in
  match o with
  | Return _ | Blocked => run ioloop fresh self = (o, self1, started)
  | Raise e =>
      if isinstance_KeyboardInterrupt_SystemExit e then
        run ioloop fresh self
        = (let '(o', self2, t') := stop ioloop self1 in (o', self2, started ++ t'))
      else if isinstance_Exception e then
        match internal_error_queue self1 with
        | Some _ =>
            run ioloop fresh self
            = (Return tt, self1,
               started ++ reported e ++ [Internal_error_queue_put (consumer_id self1)])
        | None =>
            run ioloop fresh self
            = (Raise (NoneType_has_no_attribute "put"), self1, started ++ reported e)
        end
      else run ioloop fresh self = (Raise e, self1, started)
  end.
Proof.
  intros Hloop started reported. subst started reported.
  unfold run, connect, start_ioloop. unfold_M. cbn. rewrite Hloop.
  destruct o as [[]|e|]; [done| |done].
  destruct e; cbn; try done.
  all: destruct (internal_error_queue self1); cbn; by rewrite <- ?app_assoc.
Qed.

(** ** Shutdown, cancellation and reconnection *)

(** [X11] A clean shutdown: on a consumer that holds channel [ch] on
    connection [c], [stop()], with the event loop delivering the cancel
    acknowledgement, the channel closure and the connection closure,
    returns with the closing and stopped flags set and the channel field
    cleared.  In order, it cancels the consumer tag it holds, starts the
    loop, closes the channel, closes the connection and stops the loop;
    nothing is scheduled and no connection is opened. *)
Theorem X11_clean_shutdown self ch c reply_code reply_text :
  _channel self = Some ch -> _connection self = Some c ->
  stop (clean_shutdown ch reply_code reply_text) self
  = (Return tt, set_stopped true (set_channel None (set_closing true self)),
     [Log INFO L_stopping;
      Log INFO L_sending_cancel;
      OnChannel ch (basic_cancel self_on_cancelok (_consumer_tag self));
      OnConnection c ioloop_start;
      Log INFO L_cancel_acknowledged;
      Log INFO L_closing_channel;
      OnChannel ch channel_close;
      Log WARNING (L_channel_closed ch reply_code reply_text);
      OnConnection c connection_close;
      OnConnection c ioloop_stop;
      Log INFO L_stopped]).
Proof.
  intros Hch Hc.
  unfold stop, stop_consuming, clean_shutdown, on_cancelok, close_channel,
    on_channel_closed, on_connection_closed, channel_call, connection_call.
  unfold_M. cbn. repeat (first [rewrite Hch|rewrite Hc]; cbn). reflexivity.
Qed.

(** [X12] A cancel by the broker: on a consumer that holds channel [ch]
    on connection [c], the cancel notification followed by the closures
    it causes closes the channel, then the connection, and clears the
    channel field.  When the consumer is not closing it ends by
    scheduling [reconnect] after 5 seconds; when it is closing it ends
    by stopping the event loop. *)
Theorem X12_cancel_cascade self ch c reply_code reply_text :
  _channel self = Some ch -> _connection self = Some c ->
  cancel_cascade ch c reply_code reply_text self
  = (Return tt, set_channel None self,
     [Log INFO L_cancelled_remotely;
      OnChannel ch channel_close;
      Log WARNING (L_channel_closed ch reply_code reply_text);
      OnConnection c connection_close]
     ++ (if _closing self
         then [OnConnection c ioloop_stop]
         else [Log WARNING (L_connection_closed_reopening reply_code reply_text);
               OnConnection c (add_timeout 5 self_reconnect)])).
Proof.
  intros Hch Hc.
  unfold cancel_cascade, on_consumer_cancelled, on_channel_closed, on_connection_closed,
    connection_call.
  unfold_M. cbn. rewrite Hch. cbn. rewrite Hc. cbn.
  destruct (_closing self); cbn; rewrite Hc; reflexivity.
Qed.

(** [X13] Reconnection: on a consumer with connection [c] that is not
    closing, a connection closure followed by the [reconnect] timer
    clears the channel, stops the event loop of the old connection,
    opens a connection to the configured broker (virtual host ['/'],
    socket timeout 1, retry delay 5, [on_connection_open] as callback,
    [stop_ioloop_on_close] off), stores it and starts its event loop.
    When [stop()] was called in between, the timer only stops the old
    loop: the consumer keeps the old connection and opens none. *)
Theorem X13_reconnect_after_close (ioloop : Connection -> M Json unit)
    self c fresh reply_code reply_text :
  _connection self = Some c -> _closing self = false ->
  (on_connection_closed c reply_code reply_text;; reconnect ioloop fresh) self
  = (let '(o, self', t) := ioloop fresh (set_connection (Some fresh) (set_channel None self)) in
     (o, self',
      [Log WARNING (L_connection_closed_reopening reply_code reply_text);
       OnConnection c (add_timeout 5 self_reconnect);
       OnConnection c ioloop_stop;
       Log INFO L_connecting;
       SelectConnection (rabbit_host self) (rabbit_port self) "/" (rabbit_user self)
         (rabbit_pw self) 1 5 self_on_connection_open false fresh;
       OnConnection fresh ioloop_start] ++ t))
  /\ (on_connection_closed c reply_code reply_text;;
      modify (set_closing true);;
      reconnect ioloop fresh) self
     = (Return tt, set_closing true (set_channel None self),
        [Log WARNING (L_connection_closed_reopening reply_code reply_text);
         OnConnection c (add_timeout 5 self_reconnect);
         OnConnection c ioloop_stop]).
Proof.
  intros Hc Hclosing. split.
  - unfold on_connection_closed, reconnect, connect, start_ioloop, connection_call.
    unfold_M. cbn. repeat (first [rewrite Hclosing|rewrite Hc]; cbn).
    by destruct (ioloop fresh _) as [[o self'] t].
  - unfold on_connection_closed, reconnect, connection_call.
    unfold_M. cbn. repeat (first [rewrite Hclosing|rewrite Hc]; cbn). reflexivity.
Qed.

End Properties.

(** * The properties on the consumer of [Demo] *)




(** The delivery of body ["1"], for which the handler returns two
    messages. *)
Lemma C3_witness :
  let t := (on_message Demo.json_loads Demo.decode_utf8 (Demo.delivery 5) "1"
              Demo.clock Demo.consuming).2 in
  exists ch before,
    _channel Demo.consuming = Some ch
    /\ List.filter is_publish t
       = map (fun message => OnChannel ch (response_publish Demo.consuming message))
             [Demo.reply; Demo.echo]
    /\ length (List.filter is_publish t) = 2%nat
    /\ t = before ++ [Statsd_timing "chat.message.process.time" 4]
    /\ List.filter is_publish before = List.filter is_publish t.
Proof.
  pose (r := on_message Demo.json_loads Demo.decode_utf8 (Demo.delivery 5) "1"
               Demo.clock Demo.consuming).
  intros t.
  apply (C3_publishes_in_order_before_timing Demo.json_loads Demo.decode_utf8
           (Demo.delivery 5) "1" Demo.clock Demo.consuming r.1.1 r.1.2 r.2 "1"
           [Demo.reply; Demo.echo]).
  - apply result_eta.
  - vm_compute. repeat constructor.
  - reflexivity.
Defined.

(** Ninety-nine deliveries, then the hundredth. *)
Lemma C4_witness :
  let deliveries := replicate 99 (Demo.delivery 1, "null", Demo.clock) in
  let rs := on_messages Demo.json_loads Demo.decode_utf8 deliveries Demo.consuming in
  let r := on_message Demo.json_loads Demo.decode_utf8 (Demo.delivery 1) "null"
             Demo.clock rs.1.2 in
  let n := Z.of_nat (length deliveries) + 1 in
  invocations r.1.2 = n
  /\ (n mod 100 = 0 ->
      total_execution_time r.1.2 = 0
      /\ exists before,
           r.2 = before
                 ++ [Log INFO (L_avg_handling_time
                                 ((total_execution_time rs.1.2
                                   + exec_time_millis Demo.clock) / 100));
                     Statsd_timing (statsd_prefix rs.1.2 +:+ "message.process.time")
                       (timing_millis Demo.clock)])
  /\ (n mod 100 <> 0 ->
      total_execution_time r.1.2
      = total_execution_time rs.1.2 + exec_time_millis Demo.clock).
Proof.
  intros deliveries rs r.
  assert (rs.1.1 = Return tt) as Hrs by (vm_compute; reflexivity).
  assert (r.1.1 = Return tt) as Hr by (vm_compute; reflexivity).
  apply (C4_rolling_stats Demo.json_loads Demo.decode_utf8 Demo.consuming
           deliveries (Demo.delivery 1) "null" Demo.clock rs.1.2 rs.2 r.1.2 r.2).
  - reflexivity.
  - rewrite <- Hrs. apply result_eta.
  - rewrite <- Hr. apply result_eta.
Defined.

(** After the hundred deliveries of [Demo.hundred], all returned from,
    the invocation count is 100: the statistics are not both reset. *)
Lemma C4_counterexample :
  let r := on_messages Demo.json_loads Demo.decode_utf8 Demo.hundred Demo.consuming in
  r.1.1 = Return tt
  /\ invocations r.1.2 = 100
  /\ ~ rolling_stats_reset r.1.2.
Proof.
  intros r. split; [|split].
  - vm_compute. reflexivity.
  - vm_compute. reflexivity.
  - intros [H _]. vm_compute in H. discriminate H.
Qed.

(** A connection-close notification on the consumer of [Demo], which is
    not closing. *)
Lemma C5_witness :
  on_connection_closed (Json:=string) 1%nat 320 "CONNECTION_FORCED" Demo.consuming
  = (Return tt, set_channel None Demo.consuming,
     if _closing Demo.consuming
     then [OnConnection 1%nat ioloop_stop]
     else [Log WARNING (L_connection_closed_reopening 320 "CONNECTION_FORCED");
           OnConnection 1%nat (add_timeout 5 self_reconnect)]).
Proof.
  apply (C5_connection_closed Demo.json_loads Demo.decode_utf8 Demo.consuming
           1%nat 320 "CONNECTION_FORCED" 1%nat).
  reflexivity.
Defined.

(** The setup of channel 7 acknowledged step by step, then consuming. *)
Lemma C6_witness :
  exists i0 i1 i2 i3 consumer_tag,
    (i0 < i1 < i2)%nat /\ (i2 < i3 < 4)%nat
    /\ issued_in
         (default (Demo.fresh, []) (run_callbacks Demo.json_loads Demo.decode_utf8
            Demo.setup Demo.fresh [])).2
         i0 (call_on_channel_open 7%nat) 7%nat
         (exchange_declare self_setup_queue (exchange Demo.fresh) true)
    /\ issued_in
         (default (Demo.fresh, []) (run_callbacks Demo.json_loads Demo.decode_utf8
            Demo.setup Demo.fresh [])).2
         i1 call_setup_queue 7%nat
         (queue_declare self_on_queue_declareok (queue_name Demo.fresh) true false)
    /\ issued_in
         (default (Demo.fresh, []) (run_callbacks Demo.json_loads Demo.decode_utf8
            Demo.setup Demo.fresh [])).2
         i2 call_on_queue_declareok 7%nat
         (queue_bind self_on_bindok (queue_name Demo.fresh) (exchange Demo.fresh) "")
    /\ issued_in
         (default (Demo.fresh, []) (run_callbacks Demo.json_loads Demo.decode_utf8
            Demo.setup Demo.fresh [])).2
         i3 call_on_bindok 7%nat
         (queue_declare self_on_error_queue_declareok (error_queue_name Demo.fresh)
            true false)
    /\ call_on_error_queue_declareok "ctag1" = call_on_error_queue_declareok consumer_tag
    /\ self_on_message = self_on_message /\ queue_name Demo.fresh = queue_name Demo.fresh.
Proof.
  set (r := default (Demo.fresh, []) (run_callbacks Demo.json_loads Demo.decode_utf8
                                        Demo.setup Demo.fresh [])).
  apply (C6_consume_after_topology Demo.json_loads Demo.decode_utf8 Demo.setup
           Demo.fresh r.1 r.2 4%nat (call_on_error_queue_declareok "ctag1") 7%nat
           self_on_message (queue_name Demo.fresh)).
  - assert (is_Some (run_callbacks Demo.json_loads Demo.decode_utf8 Demo.setup Demo.fresh []))
      as [x Hx] by (vm_compute; eauto).
    subst r. rewrite Hx. by destruct x.
  - eexists. split; [vm_compute; reflexivity|]. vm_compute. repeat constructor.
Defined.

(** A channel-close notification on the consumer of [Demo]. *)
Lemma C7_witness :
  on_channel_closed (Json:=string) 7%nat 406 "PRECONDITION_FAILED" Demo.consuming
  = (Return tt, Demo.consuming,
     [Log WARNING (L_channel_closed 7%nat 406 "PRECONDITION_FAILED");
      OnConnection 1%nat connection_close]).
Proof.
  apply (C7_channel_closed_closes_connection Demo.json_loads Demo.decode_utf8
           Demo.consuming 7%nat 406 "PRECONDITION_FAILED" 1%nat).
  reflexivity.
Defined.

(** The delivery of body ["null"], for which the handler returns [None],
    against a handler that returns the empty list. *)
Lemma C8_witness :
  let '(o, self', t) :=
    on_message Demo.json_loads Demo.decode_utf8 (Demo.delivery 5) "null"
      Demo.clock Demo.consuming in
  on_message Demo.json_loads Demo.decode_utf8 (Demo.delivery 5) "null" Demo.clock
    (set_callback_func (fun _ => Return (Some [])) Demo.consuming)
  = (o, set_callback_func (fun _ => Return (Some [])) self', t)
  /\ List.filter is_publish t = []
  /\ List.filter (is_incr (statsd_prefix Demo.consuming +:+ "message.publish")) t = []
  /\ List.filter (is_incr (statsd_prefix Demo.consuming +:+ "message.error")) t = [].
Proof.
  apply (C8_none_is_empty_sequence Demo.json_loads Demo.decode_utf8 (Demo.delivery 5)
           "null" Demo.clock Demo.consuming "null" (fun _ => Return (Some []))).
  - reflexivity.
  - reflexivity.
  - reflexivity.
Defined.

(** The delivery of body ["1"]: the first message names its exchange and
    queue, the second takes the consumer's. *)
Lemma C9_witness :
  let t := (on_message Demo.json_loads Demo.decode_utf8 (Demo.delivery 5) "1"
              Demo.clock Demo.consuming).2 in
  exists ch,
    _channel Demo.consuming = Some ch
    /\ List.filter is_publish t
       = map (fun message : Message =>
                OnChannel ch
                  (basic_publish
                     (default (VStr (exchange Demo.consuming)) (message !! "exchange"))
                     (default (VStr (queue_name Demo.consuming)) (message !! "queue"))
                     (default VNone (message !! "body"))))
             [Demo.reply; Demo.echo]
    /\ List.filter (is_incr (statsd_prefix Demo.consuming +:+ "message.publish")) t
       = map (fun _ => Statsd_incr (statsd_prefix Demo.consuming +:+ "message.publish"))
             [Demo.reply; Demo.echo].
Proof.
  pose (r := on_message Demo.json_loads Demo.decode_utf8 (Demo.delivery 5) "1"
               Demo.clock Demo.consuming).
  intros t.
  apply (C9_publish_targets_and_metric Demo.json_loads Demo.decode_utf8
           (Demo.delivery 5) "1" Demo.clock Demo.consuming r.1.1 r.1.2 r.2 "1"
           [Demo.reply; Demo.echo]).
  - apply result_eta.
  - vm_compute. repeat constructor.
  - reflexivity.
Defined.

(** [stop()] on the consumer as constructed, which has no connection and
    no channel; and on the consumer whose connection has closed, with the
    [reconnect] timer firing in the event loop [stop()] starts. *)
Lemma C10_witness :
  (exists self',
     stop suspend Demo.fresh
     = (Return tt, self', [Log INFO L_stopping; Log INFO L_stopped])
     /\ _closing self' = true /\ stopped self' = true
     /\ self' = set_stopped true (set_closing true Demo.fresh))
  /\ (exists self',
        stop Demo.timer_loop Demo.connecting
        = (Return tt, self',
           ([Log INFO L_stopping; OnConnection 1%nat ioloop_start]
            ++ [OnConnection 1%nat ioloop_stop]) ++ [Log INFO L_stopped])
        /\ stopped self' = true
        /\ _closing self' = _closing (set_closing true Demo.connecting)
        /\ self' = set_stopped true (set_closing true Demo.connecting)).
Proof.
  split.
  - destruct (C10_stop_without_channel Demo.fresh suspend eq_refl) as (_ & _ & H & _).
    exact (H eq_refl).
  - destruct (C10_stop_without_channel Demo.connecting Demo.timer_loop eq_refl)
      as (_ & _ & _ & H).
    destruct (H 1%nat eq_refl) as (entering & -> & _ & _ & _ & Hloop).
    exact (Hloop (Return tt) (set_closing true Demo.connecting)
             [OnConnection 1%nat ioloop_stop] eq_refl).
Defined.

(** [stop()] while the connection is opening: no channel is held, so
    nothing is cancelled; the event loop [stop()] starts goes on opening
    the connection, sets the channel up and consumes, and does not
    return.  [stop()] has not returned, [stopped] is not set, and calls
    were made on a channel. *)
Lemma C10_counterexample :
  let r := stop Demo.opening_loop Demo.connecting in
  _channel Demo.connecting = None
  /\ r.1.1 = Blocked
  /\ stopped r.1.2 = false
  /\ OnChannel 7%nat (basic_consume self_on_message "chat-bot") ∈ r.2
  /\ ~ stop_completes_quietly r.
Proof.
  intros r. split; [reflexivity|]. split; [reflexivity|]. split; [reflexivity|].
  split.
  - vm_compute. repeat constructor.
  - intros [H _]. vm_compute in H. discriminate H.
Qed.

(** * More of the class, on the consumer of [Demo] *)

(** A delivery to the consumer as constructed, which holds no channel. *)
Lemma X1_witness :
  exists e t,
    on_message Demo.json_loads Demo.decode_utf8 (Demo.delivery 5) "1" Demo.clock Demo.fresh
    = (Raise e, counted Demo.fresh, t)
    /\ isinstance_Exception e = true
    /\ List.filter is_on_channel t = []
    /\ List.filter is_decode_or_handler t = [].
Proof.
  apply (X1_delivery_dropped_before_ack Demo.json_loads Demo.decode_utf8
           (Demo.delivery 5) "1" Demo.clock Demo.fresh).
  right. right. reflexivity.
Defined.

Lemma X2_witness :
  let r := on_message Demo.json_loads Demo.decode_utf8 (Demo.delivery 5) "1"
             Demo.clock Demo.consuming in
  r.1.2 = set_total_execution_time (total_execution_time r.1.2)
            (set_invocations (invocations r.1.2) Demo.consuming)
  /\ invocations r.1.2 = invocations Demo.consuming + 1
  /\ (forall ev, ev ∈ r.2 -> is_dispatcher_call ev = true)
  /\ (forall ch call, OnChannel ch call ∈ r.2 -> _channel Demo.consuming = Some ch).
Proof.
  intros r.
  apply (X2_on_message_frame Demo.json_loads Demo.decode_utf8 (Demo.delivery 5) "1"
           Demo.clock Demo.consuming r.1.1 r.1.2 r.2).
  apply result_eta.
Defined.

Lemma X3_witness :
  let r := on_message Demo.json_loads Demo.decode_utf8 (Demo.delivery 5) "2"
             Demo.clock Demo.consuming in
  List.filter (is_incr (statsd_prefix Demo.consuming +:+ "message.receive")) r.2
  = [Statsd_incr (statsd_prefix Demo.consuming +:+ "message.receive")]
  /\ List.filter is_statsd_timing r.2
     = [Statsd_timing (statsd_prefix Demo.consuming +:+ "message.process.time")
          (timing_millis Demo.clock)]
  /\ last r.2 = Some (Statsd_timing (statsd_prefix Demo.consuming +:+ "message.process.time")
                        (timing_millis Demo.clock))
  /\ (length (List.filter (is_incr (statsd_prefix Demo.consuming +:+ "message.error")) r.2)
      <= 1)%nat
  /\ List.filter (is_incr (statsd_prefix Demo.consuming +:+ "message.publish")) r.2 = [].
Proof.
  intros r.
  assert (r.1.1 = Return tt) as Hr by (vm_compute; reflexivity).
  destruct (X3_metrics_of_a_delivery Demo.json_loads Demo.decode_utf8 (Demo.delivery 5)
              "2" Demo.clock Demo.consuming r.1.2 r.2) as (H1 & H2 & H3 & H4 & H5).
  { rewrite <- Hr. apply result_eta. }
  split; [exact H1|]. split; [exact H2|]. split; [exact H3|]. split; [exact H4|].
  apply H5. right. exists "2", (OtherException "RuntimeError" "boom").
  split; reflexivity.
Defined.

(** A hundred and one deliveries: the total holds the last reading. *)
Lemma X4_witness :
  let deliveries := Demo.hundred ++ [(Demo.delivery 1, "null", Demo.clock)] in
  let rs := on_messages Demo.json_loads Demo.decode_utf8 deliveries Demo.consuming in
  total_execution_time rs.1.2 = Z_sum (readings (since_last_hundred deliveries))
  /\ (length (since_last_hundred deliveries) < 100)%nat.
Proof.
  intros deliveries rs.
  assert (rs.1.1 = Return tt) as Hrs by (vm_compute; reflexivity).
  apply (X4_running_total Demo.json_loads Demo.decode_utf8 deliveries Demo.consuming
           rs.1.2 rs.2).
  - reflexivity.
  - reflexivity.
  - rewrite <- Hrs. apply result_eta.
Defined.

Lemma X5_witness :
  let rs := on_messages Demo.json_loads Demo.decode_utf8 Demo.hundred Demo.consuming in
  exists before timing,
    rs.2 = before
           ++ [Log INFO (L_avg_handling_time
                           (Z_sum (readings (drop (length Demo.hundred - 100) Demo.hundred))
                            / 100));
               Statsd_timing (statsd_prefix Demo.consuming +:+ "message.process.time")
                 timing].
Proof.
  intros rs.
  assert (rs.1.1 = Return tt) as Hrs by (vm_compute; reflexivity).
  apply (X5_logged_average Demo.json_loads Demo.decode_utf8 Demo.hundred Demo.consuming
           rs.1.2 rs.2).
  - reflexivity.
  - reflexivity.
  - rewrite <- Hrs. apply result_eta.
  - discriminate.
  - reflexivity.
Defined.

Lemma demo_session_runs :
  run_callbacks Demo.json_loads Demo.decode_utf8 Demo.session Demo.fresh []
  = Some ((default (Demo.fresh, []) (run_callbacks Demo.json_loads Demo.decode_utf8
                                       Demo.session Demo.fresh [])).1,
          (default (Demo.fresh, []) (run_callbacks Demo.json_loads Demo.decode_utf8
                                       Demo.session Demo.fresh [])).2).
Proof.
  assert (is_Some (run_callbacks Demo.json_loads Demo.decode_utf8 Demo.session Demo.fresh []))
    as [x Hx] by (vm_compute; eauto).
  rewrite Hx. by destruct x.
Defined.

Lemma X6_witness :
  let r := default (Demo.fresh, []) (run_callbacks Demo.json_loads Demo.decode_utf8
                                       Demo.session Demo.fresh []) in
  same_configuration Demo.fresh r.1
  /\ _closing r.1 = _closing Demo.fresh
  /\ stopped r.1 = stopped Demo.fresh.
Proof.
  intros r.
  apply (X6_run_keeps_configuration_and_flags Demo.json_loads Demo.decode_utf8
           Demo.session Demo.fresh [] r.1 r.2).
  exact demo_session_runs.
Defined.

Lemma X7_witness :
  let r := default (Demo.fresh, []) (run_callbacks Demo.json_loads Demo.decode_utf8
                                       Demo.session Demo.fresh []) in
  invocations r.1
  = invocations Demo.fresh + Z.of_nat (length (List.filter is_delivery Demo.session)).
Proof.
  intros r.
  apply (X7_run_counts_deliveries Demo.json_loads Demo.decode_utf8
           Demo.session Demo.fresh [] r.1 r.2).
  exact demo_session_runs.
Defined.

Lemma X8_witness :
  let r := default (Demo.fresh, []) (run_callbacks Demo.json_loads Demo.decode_utf8
                                       Demo.session Demo.fresh []) in
  queue_name r.1 = "chat" +:+ "-" +:+ "bot"
  /\ error_queue_name r.1 = "error-" +:+ "bot" +:+ "-" +:+ "chat"
  /\ queue_name r.1 <> error_queue_name r.1.
Proof.
  intros r.
  apply (X8_queue_names Demo.json_loads Demo.decode_utf8 "bot" "bot" "chat"
           Demo.callback_func Demo.callback_func "guest" "guest" "guest" "guest"
           "localhost" "localhost" 5672 5672 0 0 None None (Some tt) (Some tt))
    with (cbs := Demo.session) (h := r.2).
  exact demo_session_runs.
Defined.

Lemma X9_witness :
  let r := default (Demo.fresh, []) (run_callbacks Demo.json_loads Demo.decode_utf8
                                       Demo.session Demo.fresh []) in
  head (calls_on 7%nat (calls_of r.2)) = Some (basic_qos 1)
  /\ basic_qos 1 = basic_qos 1.
Proof.
  intros r.
  assert (head (calls_on 7%nat (calls_of r.2)) = Some (basic_qos 1)) as Hhead
    by (vm_compute; reflexivity).
  split; [exact Hhead|].
  apply (X9_prefetch_is_set_first Demo.json_loads Demo.decode_utf8 Demo.session
           Demo.fresh r.1 r.2 7%nat (basic_qos 1)).
  - reflexivity.
  - exact demo_session_runs.
  - exact Hhead.
Defined.

(** [run()] on the consumer as constructed, without an internal error
    queue, when a [RuntimeError] leaves the event loop. *)
Lemma X10_witness :
  run Demo.failing_loop 1%nat Demo.fresh
  = (Raise (NoneType_has_no_attribute "put"), set_connection (Some 1%nat) Demo.fresh,
     ([Log INFO L_connecting;
       SelectConnection "localhost" 5672 "/" "guest" "guest" 1 5
         self_on_connection_open false 1%nat;
       OnConnection 1%nat ioloop_start] ++ [])
     ++ [Log WARNING (L_run_exception (OtherException "RuntimeError" "boom"));
         Log WARNING L_run_exception_consumer]).
Proof.
  apply (X10_run_routes_exceptions Demo.failing_loop 1%nat Demo.fresh
           (Raise (OtherException "RuntimeError" "boom"))
           (set_connection (Some 1%nat) Demo.fresh) []).
  reflexivity.
Defined.

Lemma X11_witness :
  stop (clean_shutdown 7%nat 0 "Normal shutdown") Demo.consuming
  = (Return tt, set_stopped true (set_channel None (set_closing true Demo.consuming)),
     [Log INFO L_stopping;
      Log INFO L_sending_cancel;
      OnChannel 7%nat (basic_cancel self_on_cancelok (_consumer_tag Demo.consuming));
      OnConnection 1%nat ioloop_start;
      Log INFO L_cancel_acknowledged;
      Log INFO L_closing_channel;
      OnChannel 7%nat channel_close;
      Log WARNING (L_channel_closed 7%nat 0 "Normal shutdown");
      OnConnection 1%nat connection_close;
      OnConnection 1%nat ioloop_stop;
      Log INFO L_stopped]).
Proof.
  apply (X11_clean_shutdown Demo.consuming 7%nat 1%nat 0 "Normal shutdown");
    reflexivity.
Defined.

Lemma X12_witness :
  cancel_cascade 7%nat 1%nat 0 "cancelled" Demo.consuming
  = (Return tt, set_channel None Demo.consuming,
     [Log INFO L_cancelled_remotely;
      OnChannel 7%nat channel_close;
      Log WARNING (L_channel_closed 7%nat 0 "cancelled");
      OnConnection 1%nat connection_close]
     ++ (if _closing Demo.consuming
         then [OnConnection 1%nat ioloop_stop]
         else [Log WARNING (L_connection_closed_reopening 0 "cancelled");
               OnConnection 1%nat (add_timeout 5 self_reconnect)])).
Proof.
  apply (X12_cancel_cascade Demo.consuming 7%nat 1%nat 0 "cancelled"); reflexivity.
Defined.

Lemma X13_witness :
  (on_connection_closed 1%nat 320 "CONNECTION_FORCED";;
   modify (set_closing true);;
   reconnect (suspend (Json:=string)) 2%nat) Demo.consuming
  = (Return tt, set_closing true (set_channel None Demo.consuming),
     [Log WARNING (L_connection_closed_reopening 320 "CONNECTION_FORCED");
      OnConnection 1%nat (add_timeout 5 self_reconnect);
      OnConnection 1%nat ioloop_stop]).
Proof.
  apply (X13_reconnect_after_close suspend Demo.consuming 1%nat 2%nat 320
           "CONNECTION_FORCED"); reflexivity.
Defined.
